(** * general_utils: report assembly, value lookup and name resolution

    A shallow embedding of
    - [general_utils/single_sheet_report.py]
      ([create_report_from], [get_report_df_from], [_get_score_for_method_]),
    - [general_utils/utils.py] ([get_value], [get_item_counts],
      [most_frequent_plus_frequency], [convert_lists_to_dataframe],
      [open_file], [load_pickle], [df_to_tmp_excel] and the column loop of
      [_auto_format_cell_dimensions_]),
    - [general_utils/single_index_centered_report.py]
      ([get_index_centered_report_df_from]),
    - [general_utils/logging_logic.py] ([TqdmLogFormatter], [TqdmLogger.write]),
    together with the part of pandas these functions call.

    Python statements become computations in a small monad that records the
    calls made to collaborators (the store, the scoring function, the logger)
    and either returns a value or raises. *)

From Stdlib Require Import String Ascii List ZArith Lia Sorted.
From stdpp Require Import base option list strings gmap.

Local Open Scope string_scope.
Local Open Scope list_scope.

(** ** Results, exceptions and the call log *)

Inductive result (X A : Type) : Type :=
| Ok (a : A)
| Raise (e : X).
Arguments Ok {X A} a.
Arguments Raise {X A} e.

(** A run: the collaborator calls made so far, and how the code ended. *)
Definition run (E X A : Type) : Type := (list E * result X A)%type.

Definition ret {E X A} (a : A) : run E X A := ([], Ok a).
Definition raise {E X A} (e : X) : run E X A := ([], Raise e).
Definition lift {E X A} (r : result X A) : run E X A := ([], r).
Definition call {E X A} (ev : E) (a : A) : run E X A := ([ev], Ok a).

Definition bind {E X A B} (m : run E X A) (k : A -> run E X B) : run E X B :=
  match m with
  | (l, Ok a) => let '(l', r) := k a in (l ++ l', r)
  | (l, Raise e) => (l, Raise e)
  end.

Notation "'let*' x ':=' m 'in' k" := (bind m (fun x => k))
  (at level 10, x name, m at level 100, k at level 200).

(** [[f(x) for x in l]], left to right. *)
Fixpoint for_each {E X A B} (f : A -> run E X B) (l : list A) : run E X (list B) :=
  match l with
  | [] => ret []
  | x :: l' =>
      let* y := f x in
      let* ys := for_each f l' in
      ret (y :: ys)
  end.

(** [for x in l: s = body(s, x)]. *)
Fixpoint for_loop {E X A S} (body : S -> A -> run E X S) (s : S) (l : list A) : run E X S :=
  match l with
  | [] => ret s
  | x :: l' =>
      let* s' := body s x in
      for_loop body s' l'
  end.

(** Modelled from the spec: [MethodNotFound], which the source imports from
    the project's [errors] module, carries the comma-joined list of the
    missing method names. The other constructors are Python's own
    exceptions; [Raised] is whatever a collaborator (the caller's scoring
    function, the export) raises, kept apart from the errors the modules
    raise themselves. All of them are instances of [Exception]. *)
Inductive exn : Type :=
| MethodNotFound (msg : string)
| KeyError (key : string)
| ValueError (msg : string)
| NameError (name : string)
| TypeError (msg : string)
| Raised (payload : string).

(** Python dicts filled by a comprehension: insertion order is kept, a
    repeated key keeps its place and takes the last value. *)
Fixpoint dict_set {A} (k : string) (v : A) (d : list (string * A)) : list (string * A) :=
  match d with
  | [] => [(k, v)]
  | (k', v') :: d' => if decide (k = k') then (k, v) :: d' else (k', v') :: dict_set k v d'
  end.

Definition dict_of {A} (items : list (string * A)) : list (string * A) :=
  foldl (fun d kv => dict_set (fst kv) (snd kv) d) [] items.

Fixpoint assoc {K A} `{EqDecision K} (k : K) (l : list (K * A)) : option A :=
  match l with
  | [] => None
  | (k', a) :: l' => if decide (k = k') then Some a else assoc k l'
  end.

(** ** The part of pandas the report uses *)

Module Pandas.
Section Frames.

(** [V] are the non-null Python values; a cell is [None] when it is null
    (NaN or None) and [Some v] otherwise. *)
Context {V : Type}.

Definition notna (c : option V) : bool := match c with Some _ => true | None => false end.

(** A column label of the report: (field, method). *)
Definition column_label : Type := (string * string)%type.

Definition show_label (c : column_label) : string :=
  ("(" ++ fst c ++ ", " ++ snd c ++ ")")%string.

(** A frame with a row index of dataset names and two-level column labels;
    every row carries one cell per column. *)
Record DataFrame : Type := {
  columns : list column_label;
  rows : list (string * list (option V))
}.

Definition index (df : DataFrame) : list string := map fst (rows df).

(** [pd.DataFrame(data=[], index=idx, columns=cols)]: all cells null. *)
Definition new_frame (idx : list string) (cols : list column_label) : DataFrame :=
  {| columns := cols; rows := map (fun d => (d, map (fun _ => None) cols)) idx |}.

(** One row of [df.loc[labels, targets] = values]: the cells of [old] under
    the labels [targets] take the values [vs]. *)
Definition assign_cells (cols targets : list column_label) (vs old : list (option V))
    : list (option V) :=
  zip_with (fun c o => default o (assoc c (zip targets vs))) cols old.

Definition write_row (df : DataFrame) (d : string) (targets : list column_label)
    (vs : list (option V)) : DataFrame :=
  {| columns := columns df;
     rows := map (fun r => if decide (fst r = d)
                           then (fst r, assign_cells (columns df) targets vs (snd r))
                           else r) (rows df) |}.

Definition writes (df : DataFrame) (targets : list column_label)
    (l : list (string * list (option V))) : DataFrame :=
  foldl (fun df' dv => write_row df' (fst dv) targets (snd dv)) df l.

(** [df.loc[labels, targets] = values] with list-like [labels] and [targets]:
    a label that is not in the index (or not a column) raises [KeyError], a
    block of the wrong shape raises [ValueError]; no row or column is ever
    added. With unique labels this is pandas' assignment; where a label is
    repeated, every position carrying it is written. *)
Definition loc_set (df : DataFrame) (labels : list string) (targets : list column_label)
    (values : list (list (option V))) : result exn DataFrame :=
  match find (fun d => negb (bool_decide (d ∈ index df))) labels with
  | Some d => Raise (KeyError d)
  | None =>
      match find (fun c => negb (bool_decide (c ∈ columns df))) targets with
      | Some c => Raise (KeyError (show_label c))
      | None =>
          if bool_decide (length values = length labels)
             && forallb (fun vs => bool_decide (length vs = length targets)) values
          then Ok (writes df targets (zip labels values))
          else Raise (ValueError "shape mismatch")
      end
  end.

(** [df.dropna(axis="index", how="all")]: a row stays when one of its cells
    is not null; a row without cells goes. *)
Definition dropna_all (df : DataFrame) : DataFrame :=
  {| columns := columns df;
     rows := List.filter (fun r => existsb notna (snd r)) (rows df) |}.

(** [key in df] for a bare key and two-level columns: the key is looked up in
    the first level. *)
Definition contains (df : DataFrame) (key : string) : bool :=
  existsb (fun c => bool_decide (fst c = key)) (columns df).

Section Astype.

(** [df.astype(mapping)] with pandas' default [errors="raise"].

    [cast d c] converts one cell to dtype [d], [None] when it cannot.
    [key_selects k c] tells whether the mapping key [k] designates the column
    labelled [c]: the keys are bare field names, the labels are (field,
    method) pairs. pandas looks every column label up among the keys of the
    mapping, where a (field, method) label is none of the bare names: that
    is [by_label] below. [by_field] is the reading in which a key stands for
    all the columns of its field; what is proved for every [key_selects]
    holds under both. Every key must be contained in the frame. *)
Context {dtype : Type}.
Variable key_selects : string -> column_label -> bool.
Variable cast : dtype -> option V -> option (option V).

Definition column_dtype (mapping : list (string * dtype)) (c : column_label) : option dtype :=
  snd <$> find (fun kd => key_selects (fst kd) c) mapping.

Definition cast_cell (mapping : list (string * dtype)) (c : column_label) (v : option V)
    : option (option V) :=
  match column_dtype mapping c with
  | Some d => cast d v
  | None => Some v
  end.

Definition column_values (df : DataFrame) (j : nat) : list (option V) :=
  map (fun r => default None (snd r !! j)) (rows df).

(** A row after the conversion: the cell under label [c] is converted by
    [cast_cell]. *)
Definition cast_row (mapping : list (string * dtype)) (cols : list column_label)
    (cells : list (option V)) : list (option V) :=
  imap (fun j v => match cols !! j with
                   | Some c => default v (cast_cell mapping c v)
                   | None => v
                   end) cells.

(** The first column, in column order, holding a cell that does not convert. *)
Definition failing_column (mapping : list (string * dtype)) (df : DataFrame)
    : option column_label :=
  snd <$> find (fun jc => existsb (fun v => negb (bool_decide (is_Some v)))
                            (map (cast_cell mapping (snd jc)) (column_values df (fst jc))))
               (imap pair (columns df)).

Definition astype (mapping : list (string * dtype)) (df : DataFrame) : result exn DataFrame :=
  match find (fun kd => negb (contains df (fst kd))) mapping with
  | Some kd => Raise (KeyError (fst kd))
  | None =>
      match failing_column mapping df with
      | Some c => Raise (ValueError (show_label c))
      | None =>
          Ok {| columns := columns df;
                rows := map (fun r => (fst r, cast_row mapping (columns df) (snd r)))
                            (rows df) |}
      end
  end.

End Astype.

(** The key designates every column of that field. *)
Definition by_field (k : string) (c : column_label) : bool := bool_decide (fst c = k).

(** pandas' matching: the key designates a column only when it equals the
    whole label, which a bare field name never does. *)
Definition by_label (k : string) (c : column_label) : bool := false.

End Frames.
Arguments DataFrame V : clear implicits.
End Pandas.

(** ** single_sheet_report.py *)

Module SingleSheetReport.
Import Pandas.

(** Modelled from the spec: the records of the store ([Dataset], [Method]),
    the store gateway [DatabaseClient] and the objects built for the scoring
    function. Their classes live in packages that are not among the sources;
    only the attributes and calls the report uses are kept. *)
Record Dataset : Type := { dataset_name : string; absolute_path : string }.
Record Method : Type := { method_name : string; datasets : list string }.

Record DatabaseClient : Type := {
  get_all_methods : list string;
  get_all_datasets : list string;
  get_dataset : string -> Dataset;
  get_method : string -> Method
}.

Record DatasetFileClient : Type := { client_path : string }.
Record DatasetContentsQuery : Type := { file_client : DatasetFileClient }.
Record RunQuery : Type := { contents : DatasetContentsQuery; query_method : string }.

(** Calls that leave the module, in the order they are made. *)
Inductive event : Type :=
| GetAllMethods
| GetAllDatasets
| GetDataset (name : string)
| GetMethod (name : string)
| ScoreFunc (q : RunQuery)
| DfToTmpExcel (sheet_name : string).

Section Report.

Context {V dtype : Type}.

(** [DATA_SET_NAME] is a constant of the project's [accuracy_report] module. *)
Variable DATA_SET_NAME : string.
Variable key_selects : string -> column_label -> bool.
Variable cast : dtype -> option V -> option (option V).

(** What the scoring function hands back: a tuple, or anything else. *)
Inductive score : Type :=
| Scalar (v : option V)
| Tuple (vs : list (option V)).

(** The scoring function either returns a score or raises. *)
Definition score_function : Type := RunQuery -> result string score.

(** The frame [analysis]: the dataset column and one column per score name. *)
Record ScoreTable : Type := {
  score_columns : list string;
  score_rows : list (string * list (option V))
}.

(** [pd.DataFrame(data=data, columns=cols)] for a list of rows: short rows
    are filled with nulls up to the longest one, and the width reached must
    be the number of column names. *)
Definition score_frame (cols : list string) (data : list (string * list (option V)))
    : result exn ScoreTable :=
  match data with
  | [] => Ok {| score_columns := cols; score_rows := [] |}
  | _ :: _ =>
      let w := max_list (map (fun r => S (length (snd r))) data) in
      if decide (w = length cols)
      then Ok {| score_columns := cols;
                 score_rows := map (fun r => (fst r,
                                 snd r ++ replicate (w - S (length (snd r))) None)) data |}
      else Raise (ValueError "columns passed do not match the data")
  end.

Definition getitem (d : gmap string DatasetFileClient) (k : string)
    : result exn DatasetFileClient :=
  match d !! k with
  | Some c => Ok c
  | None => Raise (KeyError k)
  end.

Definition apply_score (score_func : score_function) (q : RunQuery) : run event exn score :=
  match score_func q with
  | Ok s => call (ScoreFunc q) s
  | Raise p => ([ScoreFunc q], Raise (Raised p))
  end.

(** [RunQuery(DatasetContentsQuery(file_client), method.name)]. *)
Definition query_for (method : Method) (fc : DatasetFileClient) : RunQuery :=
  {| contents := {| file_client := fc |}; query_method := method_name method |}.

(** The body of the loop of [_get_score_for_method_]: the row appended to
    [data] for the dataset [d]. *)
Definition score_row (method : Method)
    (dataset_name_to_file_client : gmap string DatasetFileClient)
    (score_func : score_function) (d : string) : run event exn (string * list (option V)) :=
  let* file_client := lift (getitem dataset_name_to_file_client d) in
  let run_query := query_for method file_client in
  let* score := apply_score score_func run_query in
  ret (match score with
       | Tuple vs => (d, vs)
       | Scalar v => (d, [v])
       end).

Definition _get_score_for_method_ (method : Method)
    (dataset_name_to_file_client : gmap string DatasetFileClient)
    (score_func : score_function) (score_names : list string) : run event exn ScoreTable :=
  let dataset_list := datasets method in
  let* data := for_each (score_row method dataset_name_to_file_client score_func)
                        dataset_list in
  lift (score_frame (DATA_SET_NAME :: score_names) data).

(** [get_report_df_from], from the validation to [report.dropna(...)]:
    the table with its final labels, filled method by method and pruned. *)
Definition pruned_report_df (methods field_names : list string)
    (func : score_function) (db_client : DatabaseClient) : run event exn (DataFrame V) :=
  let* all_methods := call GetAllMethods (get_all_methods db_client) in
  let errors := elements ((list_to_set methods : gset string) ∖ list_to_set all_methods) in
  if bool_decide (0 < length errors)
  then raise (MethodNotFound (String.concat ", " errors))
  else
    let* all_datasets := call GetAllDatasets (get_all_datasets db_client) in
    let multi_index_columns := list_prod field_names methods in
    let report := new_frame all_datasets multi_index_columns in
    let* all_dataset_instances :=
      for_each (fun name => call (GetDataset name) (get_dataset db_client name)) all_datasets in
    let all_file_clients : gmap string DatasetFileClient :=
      foldl (fun m d => <[dataset_name d := {| client_path := absolute_path d |}]> m)
            ∅ all_dataset_instances in
    let* report := for_loop (fun report method =>
        let* method_instance := call (GetMethod method) (get_method db_client method) in
        let* field_values :=
          _get_score_for_method_ method_instance all_file_clients func field_names in
        lift (loc_set report (map fst (score_rows field_values))
                      (list_prod field_names [method])
                      (map snd (score_rows field_values)))) report methods in
    ret (dropna_all report).

(** [get_report_df_from]: the pruned table, then the coercion
    [report.astype(col_to_dtype)], called without an [errors] argument. *)
Definition get_report_df_from (methods field_names : list string) (dtypes : list dtype)
    (func : score_function) (db_client : DatabaseClient) : run event exn (DataFrame V) :=
  let* report := pruned_report_df methods field_names func db_client in
  let col_to_dtype := dict_of (zip field_names dtypes) in
  lift (astype key_selects cast col_to_dtype report).

(** [utils.df_to_tmp_excel] writes a temporary spreadsheet and opens it; it
    is input/output and may fail. [str] is Python's [str(e)]. *)
Variable df_to_tmp_excel : DataFrame V -> string -> result exn unit.
Variable str : exn -> string.

Definition create_report_from (methods field_names : list string) (dtypes : list dtype)
    (func : score_function) (sheet_name : string) (db_client : DatabaseClient)
    : run event exn string :=
  match get_report_df_from methods field_names dtypes func db_client with
  | (l, Raise e) => (l, Ok (str e))
  | (l, Ok report) =>
      let* _ := (l ++ [DfToTmpExcel sheet_name], df_to_tmp_excel report sheet_name) in
      ret ""
  end.

(** *** Vocabulary of the properties *)

(** The values a score stands for: a tuple's items, or the one scalar. *)
Definition score_values (s : score) : list (option V) :=
  match s with
  | Tuple vs => vs
  | Scalar v => [v]
  end.

(** [row] is the row of dataset [d]: its name, then the values of the score
    the scoring function returns for its file client. *)
Definition row_of (method : Method) (clients : gmap string DatasetFileClient)
    (func : score_function) (d : string) (row : string * list (option V)) : Prop :=
  fst row = d /\
  exists fc s, clients !! d = Some fc /\ func (query_for method fc) = Ok s /\
               snd row = score_values s.

(** A scoring function that returns the bare scalar, and the one that
    returns it as a one-element tuple. *)
Definition as_scalar (h : RunQuery -> result string (option V)) : score_function :=
  fun q => match h q with
           | Ok v => Ok (Scalar v)
           | Raise p => Raise p
           end.

Definition as_tuple (h : RunQuery -> result string (option V)) : score_function :=
  fun q => match h q with
           | Ok v => Ok (Tuple [v])
           | Raise p => Raise p
           end.

(** A run that does not end in [MethodNotFound]. *)
Definition quiet {A} (m : run event exn A) : Prop :=
  forall msg, snd m <> Raise (MethodNotFound msg).

(** What holds of the table while the methods are merged, and of the pruned
    table: its column labels, and where a row that is not all null comes
    from. *)
Definition merged (methods fields : list string) (db : DatabaseClient) (r : DataFrame V) : Prop :=
  columns r = list_prod fields methods /\
  forall d cells, (d, cells) ∈ rows r -> existsb notna cells = true ->
    exists m, m ∈ methods /\ d ∈ datasets (get_method db m).

End Report.
End SingleSheetReport.

(** ** utils.py: [get_value] *)

Module Utils.

(** The names bound at module level in utils.py: what it imports and what it
    defines. A name used in a function body and not assigned there is looked
    up here (no builtin is called [SearchValNotFound]). *)
Definition module_globals : gset string :=
  list_to_set
    ["json"; "logging"; "os"; "pickle"; "tempfile"; "openpyxl"; "pd"; "Counter"; "copy";
     "load_workbook"; "Workbook"; "List"; "Tuple"; "Dict"; "Union";
     "open_file"; "get_item_counts"; "most_frequent_plus_frequency";
     "tuple_list_to_string"; "convert_lists_to_dataframe";
     "_auto_format_cell_dimensions_"; "autofit_dimensions_writer"; "autofit_dimensions";
     "append_df_to_excel"; "upload_df_dict_to_json"; "json_to_df_dict"; "get_value";
     "load_pickle"; "df_to_tmp_excel"].

Section GetValue.

Context {V : Type}.

(** Python's [==] between a cell and the searched value. *)
Variable eqb : V -> V -> bool.

(** Modelled from the spec: [SearchValNotFound], the project's error class
    for a lookup that finds no matching row; it is built from the searched
    column and value. [KeyError] and [NameError] are Python's own. *)
Inductive exn : Type :=
| KeyError (key : string)
| NameError (name : string)
| SearchValNotFound (search_col_name : string) (search_val : V).

Inductive event : Type :=
| LogError (err : exn).

(** A frame, column by column: each label with the values of its column. *)
Definition DataFrame : Type := list (string * list V).

Definition getitem (df : DataFrame) (col : string) : result exn (list V) :=
  match assoc col df with
  | Some values => Ok values
  | None => Raise (KeyError col)
  end.

(** [df.loc[mask]]: the rows where the mask holds. *)
Definition select (mask : list bool) (values : list V) : list V :=
  map snd (List.filter fst (zip mask values)).

Definition loc_mask (df : DataFrame) (mask : list bool) : DataFrame :=
  map (fun cv => (fst cv, select mask (snd cv))) df.

(** [globals] are the names bound in the module that holds the function;
    when [SearchValNotFound] is bound, it is bound to the error class. The
    [try] catches [IndexError] only: a missing [get_col] raises [KeyError]
    through it. *)
Definition get_value (globals : gset string) (df : DataFrame) (search_col_name : string)
    (search_val : V) (get_col : string) : run event exn V :=
  let* column := lift (getitem df search_col_name) in
  let filtered_df := loc_mask df (map (fun x => eqb x search_val) column) in
  let* values := lift (getitem filtered_df get_col) in
  match values with
  | v :: _ => ret v
  | [] =>
      if bool_decide ("SearchValNotFound" ∈ globals)
      then
        let err := SearchValNotFound search_col_name search_val in
        let* _ := call (LogError err) tt in
        raise err
      else raise (NameError "SearchValNotFound")
  end.

End GetValue.
Arguments exn V : clear implicits.
Arguments event V : clear implicits.
Arguments DataFrame V : clear implicits.
End Utils.

(** ** single_index_centered_report.py *)

Module SingleIndexCenteredReport.
Section Report.

(** [A] are the inputs (the row labels), [V] the non-null cell values. *)
Context {A V dtype : Type} `{EqDecision A}.

Record DataFrame : Type := {
  columns : list string;
  rows : list (A * list (option V))
}.

(** What a module-level name is bound to: a list, or something that cannot
    be iterated (a function, a module, a type). *)
Inductive global_value : Type :=
| GList (items : list A)
| GOther.

(** The names bound at module level in single_index_centered_report.py
    (no builtin is called [datasets]). *)
Definition module_globals : gmap string global_value :=
  list_to_map [("List", GOther); ("Callable", GOther); ("pd", GOther);
               ("get_index_centered_report_df_from", GOther)].

Inductive event : Type :=
| Func (input : A).

Variable cast : dtype -> option V -> option (option V).

Definition new_frame (idx : list A) (cols : list string) : DataFrame :=
  {| columns := cols; rows := map (fun d => (d, map (fun _ => None) cols)) idx |}.

(** [report.loc[dataset, :] = field_values] with a scalar label: the rows
    carrying the label are overwritten; when there is none, a row is added. *)
Definition loc_set_row (df : DataFrame) (d : A) (vs : list (option V)) : result exn DataFrame :=
  if bool_decide (length vs = length (columns df))
  then Ok {| columns := columns df;
             rows := if bool_decide (d ∈ map fst (rows df))
                     then map (fun r => if decide (fst r = d) then (d, vs) else r) (rows df)
                     else rows df ++ [(d, vs)] |}
  else Raise (ValueError "shape mismatch").

(** [df.astype(mapping, errors="ignore")]: a column whose cells all convert is
    converted, any other column is left as it is. *)
Definition column_converts (mapping : list (string * dtype)) (df : DataFrame)
    (j : nat) (c : string) : bool :=
  match assoc c mapping with
  | Some d => forallb (fun r => bool_decide (is_Some (cast d (default None (snd r !! j)))))
                      (rows df)
  | None => false
  end.

Definition astype_ignore (mapping : list (string * dtype)) (df : DataFrame)
    : result exn DataFrame :=
  match find (fun kd => negb (bool_decide (fst kd ∈ columns df))) mapping with
  | Some kd => Raise (KeyError (fst kd))
  | None =>
      Ok {| columns := columns df;
            rows := map (fun r => (fst r,
                      imap (fun j v =>
                        match columns df !! j with
                        | Some c => if column_converts mapping df j c
                                    then default v (assoc c mapping ≫= fun d => cast d v)
                                    else v
                        | None => v
                        end) (snd r))) (rows df) |}
  end.

Definition apply_func (func : A -> result string (list (option V))) (x : A)
    : run event exn (list (option V)) :=
  match func x with
  | Ok vs => call (Func x) vs
  | Raise p => ([Func x], Raise (Raised p))
  end.

(** [globals] are the names bound in the module that holds the function. The
    loop iterates over the name [datasets], which the function never
    assigns, so it is looked up among them. *)
Definition get_index_centered_report_df_from (globals : gmap string global_value)
    (inputs : list A) (column_names : list string) (dtypes : list dtype)
    (func : A -> result string (list (option V))) : run event exn DataFrame :=
  let inputs_index := inputs in
  let report := new_frame inputs_index column_names in
  let* datasets := lift (match globals !! "datasets" with
                         | Some (GList items) => Ok items
                         | Some GOther => Raise (TypeError "object is not iterable")
                         | None => Raise (NameError "datasets")
                         end) in
  let* report := for_loop (fun report dataset =>
      let* field_values := apply_func func dataset in
      lift (loc_set_row report dataset field_values)) report datasets in
  let col_to_dtype := dict_of (zip column_names dtypes) in
  lift (astype_ignore col_to_dtype report).

End Report.
End SingleIndexCenteredReport.

(** ** A store, a scoring function and a conversion table to run the code on *)

Module Examples.
Import Pandas SingleSheetReport.

Inductive pyval : Type :=
| PNum (z : Z)
| PStr (s : string).

Inductive dtype : Type :=
| DInt
| DFloat.

(** Numbers convert to [int] and to [float]; text converts to neither; a null
    is a float (NaN) and no [int]. *)
Definition convert (d : dtype) (c : option pyval) : option (option pyval) :=
  match d, c with
  | _, Some (PNum z) => Some (Some (PNum z))
  | _, Some (PStr _) => None
  | DFloat, None => Some None
  | DInt, None => None
  end.

(** Datasets A, B and C; M1 ran on A and B, M2 on B and C. *)
Definition store : DatabaseClient :=
  {| get_all_methods := ["M1"; "M2"];
     get_all_datasets := ["A"; "B"; "C"];
     get_dataset := fun name => {| dataset_name := name; absolute_path := name |};
     get_method := fun name =>
       {| method_name := name;
          datasets := if decide (name = "M1") then ["A"; "B"] else ["B"; "C"] |} |}.

Definition path_length (q : RunQuery) : Z :=
  Z.of_nat (String.length (client_path (file_client (contents q)))).

(** Scores the length of the dataset's path, as a bare scalar. *)
Definition name_length : @score_function pyval :=
  fun q => Ok (Scalar (Some (PNum (path_length q)))).

(** Scores a text, which converts to no number. *)
Definition text_score : @score_function pyval :=
  fun q => Ok (Scalar (Some (PStr "abc"))).

Definition exported (report : DataFrame pyval) (sheet_name : string) : result exn unit := Ok tt.

Definition message (e : exn) : string :=
  match e with
  | MethodNotFound msg => msg
  | KeyError key => key
  | ValueError msg => msg
  | NameError name => name
  | TypeError msg => msg
  | Raised payload => payload
  end.

(** The scenario of the spec: both methods, one field, scores as floats. *)
Definition scenario_log : list event :=
  [GetAllMethods; GetAllDatasets; GetDataset "A"; GetDataset "B"; GetDataset "C";
   GetMethod "M1";
   ScoreFunc (query_for (get_method store "M1") {| client_path := "A" |});
   ScoreFunc (query_for (get_method store "M1") {| client_path := "B" |});
   GetMethod "M2";
   ScoreFunc (query_for (get_method store "M2") {| client_path := "B" |});
   ScoreFunc (query_for (get_method store "M2") {| client_path := "C" |})].

Definition scenario_table : DataFrame pyval :=
  {| columns := [("score", "M1"); ("score", "M2")];
     rows := [("A", [Some (PNum 1); None]);
              ("B", [Some (PNum 1); Some (PNum 1)]);
              ("C", [None; Some (PNum 1)])] |}.

(** The file clients of the store, as [get_report_df_from] builds them. *)
Definition clients : gmap string DatasetFileClient :=
  list_to_map [("A", {| client_path := "A" |}); ("B", {| client_path := "B" |});
               ("C", {| client_path := "C" |})].

(** A frame for [get_value], the names of a module that also imports the
    error class, and an index-centred module that binds [datasets]. *)
Definition prices : Utils.DataFrame Z := [("id", [1; 2; 2]%Z); ("price", [10; 20; 30]%Z)].

Definition project_globals : gset string := {["SearchValNotFound"]} ∪ Utils.module_globals.

Definition with_datasets (items : list string)
    : gmap string (SingleIndexCenteredReport.global_value (A := string)) :=
  <["datasets" := SingleIndexCenteredReport.GList items]>
    SingleIndexCenteredReport.module_globals.

Definition two_lengths (x : string) : result string (list (option pyval)) :=
  Ok [Some (PNum (Z.of_nat (String.length x))); Some (PStr x)].

End Examples.

(** ** What a report holds and which calls build it *)

Module ReportContents.
Import Pandas SingleSheetReport.
Section Contents.

Context {V : Type}.
Variable func : @score_function V.
Variable db : DatabaseClient.

(** [DatasetFileClient(d.absolute_path)] for the dataset named [d]. *)
Definition client_of (d : string) : DatasetFileClient :=
  {| client_path := absolute_path (get_dataset db d) |}.

(** The query handed to the scoring function for method [m] and dataset [d]. *)
Definition query_of (m d : string) : RunQuery := query_for (get_method db m) (client_of d).

(** The score values for method [m] on dataset [d]. *)
Definition values_of (m d : string) : list (option V) :=
  match func (query_of m d) with
  | Ok s => score_values s
  | Raise _ => []
  end.

(** The cell of row [d] under the label (field, method): the value scored for
    the field when the method ran on [d], a null otherwise. *)
Definition score_cell (fields : list string) (d : string) (c : column_label) : option V :=
  if bool_decide (d ∈ datasets (get_method db (snd c)))
  then default None (assoc (fst c) (zip fields (values_of (snd c) d)))
  else None.

(** The table before pruning: a row per dataset of the store, in its order. *)
Definition full_table (methods fields : list string) : DataFrame V :=
  {| columns := list_prod fields methods;
     rows := map (fun d => (d, map (score_cell fields d) (list_prod fields methods)))
                 (get_all_datasets db) |}.

(** The calls of a run that reaches the end: the two enumerations, a lookup
    per dataset, then for each method its lookup and a score per dataset. *)
Definition calls_of (methods : list string) : list event :=
  [GetAllMethods; GetAllDatasets] ++ map GetDataset (get_all_datasets db) ++
  flat_map (fun m => GetMethod m :: map (fun d => ScoreFunc (query_of m d))
                                        (datasets (get_method db m))) methods.

(** The table while the methods [ms] have been merged. *)
Definition merged_row (methods fields ms : list string) (d : string) : list (option V) :=
  map (fun c => if bool_decide (snd c ∈ ms) then score_cell fields d c else None)
      (list_prod fields methods).

Definition merged_table (methods fields ms : list string) : DataFrame V :=
  {| columns := list_prod fields methods;
     rows := map (fun d => (d, merged_row methods fields ms d)) (get_all_datasets db) |}.


(** The store names each dataset once and hands back, for a name, the
    dataset of that name. *)
Definition store_consistent : Prop :=
  NoDup (get_all_datasets db) /\
  forall d, d ∈ get_all_datasets db -> dataset_name (get_dataset db d) = d.

(** What a complete run asks of the method [m]: its datasets are datasets of
    the store, each listed once, and each is scored with one value per
    field. *)
Definition scored (fields : list string) (m : string) : Prop :=
  NoDup (datasets (get_method db m)) /\
  forall d, d ∈ datasets (get_method db m) ->
    d ∈ get_all_datasets db /\
    exists s, func (query_of m d) = Ok s /\ length (score_values s) = length fields.

Definition score_of (m d : string) : score :=
  match func (query_of m d) with Ok s => s | Raise _ => Scalar None end.

(** The scoring calls the collector makes for the datasets [ds] that have a
    file client. *)
Definition scoring_calls (method : Method) (clients : gmap string DatasetFileClient)
    (ds : list string) : list event :=
  flat_map (fun d => match clients !! d with
                     | Some fc => [ScoreFunc (query_for method fc)]
                     | None => []
                     end) ds.

End Contents.
End ReportContents.

(** ** utils.py: counting and column lists *)

Module UtilsLists.

Section Counting.

(** [A] are the items of the list, taken up to Python's [==]. *)
Context {A : Type} `{EqDecision A}.

(** [Counter(lst)]: every item with the number of times it was seen, in the
    order in which the items were first seen. *)
Fixpoint counter_add (x : A) (c : list (A * nat)) : list (A * nat) :=
  match c with
  | [] => [(x, 1)]
  | (y, n) :: c' => if decide (x = y) then (y, S n) :: c' else (y, n) :: counter_add x c'
  end.

Definition Counter (lst : list A) : list (A * nat) :=
  foldl (fun c x => counter_add x c) [] lst.

(** [sorted(items, key=itemgetter(1), reverse=True)]: by decreasing count;
    the sort is stable, so items of equal count keep their order. *)
Fixpoint insert_by_count (p : A * nat) (l : list (A * nat)) : list (A * nat) :=
  match l with
  | [] => [p]
  | q :: l' => if bool_decide (snd q <= snd p) then p :: q :: l' else q :: insert_by_count p l'
  end.

Definition sorted_by_count (items : list (A * nat)) : list (A * nat) :=
  foldr insert_by_count [] items.

(** [c.most_common(n)], which is [heapq.nlargest(n, c.items(), key=count)]. *)
Definition most_common (n : nat) (c : list (A * nat)) : list (A * nat) :=
  take n (sorted_by_count c).

Definition get_item_counts (lst : list A) : list (A * nat) :=
  if decide (length lst = 0) then []
  else
    let c := Counter lst in
    most_common (length c) c.

(** Returns the pair [(None, 0)] or the first pair of the counts. *)
Definition most_frequent_plus_frequency (lst : list A) : option A * nat :=
  let occurrence_count := get_item_counts lst in
  match occurrence_count with
  | [] => (None, 0)
  | p :: _ => (Some (fst p), snd p)
  end.

(** *** Vocabulary of the properties *)

(** How many times [x] occurs in [lst]. *)
Definition occurrences (x : A) (lst : list A) : nat :=
  length (List.filter (fun y => bool_decide (y = x)) lst).

End Counting.

Section Columns.
Context {V : Type}.

(** [pd.DataFrame(data={name: values, ...})] for a dict of lists: the columns
    in the dict's order; lists of different lengths raise [ValueError]. *)
Definition frame_of_dict (data : list (string * list V)) : result exn (Utils.DataFrame V) :=
  match data with
  | [] => Ok []
  | (_, values) :: _ =>
      if forallb (fun cv => bool_decide (length (snd cv) = length values)) data
      then Ok data
      else Raise (ValueError "All arrays must be of the same length")
  end.

Definition convert_lists_to_dataframe (list_of_column_data : list (list V))
    (columns : list string) : result exn (Utils.DataFrame V) :=
  frame_of_dict (dict_of (zip columns list_of_column_data)).

End Columns.
End UtilsLists.

(** ** utils.py: files *)

Module UtilsFiles.

(** What the functions do to the world, in order. [LogCritical e] is the
    record [f"Exception: {e}"]. *)
Inductive event : Type :=
| PathExists (path : string)
| SubprocessCall (args : list string)
| Startfile (path : string)
| LogError (msg : string)
| LogCritical (e : exn)
| ReadPickle (path : string)
| NamedTemporaryFile (suffix : string)
| ToExcel (path sheet_name : string).

(** The machine the code runs on. *)
Record Host : Type := {
  path_exists : string -> bool;
  platform_system : string;
  tmp_name : string
}.

(** [globals] are the names bound in the module that holds the function:
    the body reads [Path], which it does not assign. *)
Definition open_file (globals : gset string) (host : Host) (path : string)
    : run event exn unit :=
  if bool_decide ("Path" ∈ globals)
  then
    let* found := call (PathExists path) (path_exists host path) in
    if found : bool
    then
      if decide (platform_system host = "Darwin")
      then call (SubprocessCall ["open"; path]) tt
      else if decide (platform_system host = "Windows")
      then call (Startfile path) tt
      else call (SubprocessCall ["xdg-open"; path]) tt
    else call (LogError ("Error: " ++ path ++ " is not a file.")%string) tt
  else raise (NameError "Path").

Section Files.
Context {V DF : Type}.

(** [unpickle path] is what opening the file and [pickle.load] give: the
    object stored there ([None] for Python's [None]), or an exception. The
    function returns [None] for every exception. *)
Definition load_pickle (globals : gset string) (unpickle : string -> result exn (option V))
    (path : string) : run event exn (option V) :=
  let attempt : run event exn (option V) :=
    if bool_decide ("Path" ∈ globals)
    then
      match unpickle path with
      | Ok v => call (ReadPickle path) v
      | Raise e => ([ReadPickle path], Raise e)
      end
    else raise (NameError "Path") in
  match attempt with
  | (l, Ok v) => (l, Ok v)
  | (l, Raise e) => (l ++ [LogCritical e], Ok None)
  end.

(** [to_excel df path sheet_name] is [df.to_excel(...)], which writes the
    file or raises; creating the temporary file is taken to succeed. *)
Definition df_to_tmp_excel (globals : gset string) (host : Host)
    (to_excel : DF -> string -> string -> result exn unit)
    (df : DF) (sheet_name : string) : run event exn unit :=
  let* tmp := call (NamedTemporaryFile ".xlsx") (tmp_name host) in
  let* _ := ([ToExcel tmp sheet_name], to_excel df tmp sheet_name) in
  open_file globals host tmp.

End Files.
End UtilsFiles.

(** ** utils.py: column widths *)

Module UtilsSheets.

(** A cell: the text [str(cell.value)], character by character as Python
    counts them, and the [wrap_text] flag of its alignment (the copy made of
    the alignment keeps its other attributes). *)
Record Cell : Type := { text : string; wrap_text : bool }.

(** The part of a worksheet the first loop of
    [_auto_format_cell_dimensions_] works on: the columns of cells, and the
    widths in [column_dimensions], keyed by the column's number (openpyxl
    keys them by the column's letter, which [get_column_letter] gives for the
    number). The second loop caps row heights and touches neither. *)
Record Worksheet : Type := {
  iter_cols : list (list Cell);
  column_widths : gmap nat nat
}.

Definition MAX_WIDTH : nat := 35.

(** [s.split("\n")]. *)
Fixpoint split_lines (s : string) : list string :=
  match s with
  | EmptyString => [""]
  | String c s' =>
      if Ascii.eqb c "010"%char then "" :: split_lines s'
      else match split_lines s' with
           | line :: lines => String c line :: lines
           | [] => [String c ""]
           end
  end.

(** [max([len(line) for line in str(cell.value).split("\n")])]. *)
Definition longest_line (cell : Cell) : nat :=
  max_list (map String.length (split_lines (text cell))).

(** The body of the loop over the cells of a column: the running maximum and
    the cell as it is left. *)
Definition visit_cell (until_max_width : bool) (maximum_value_for_col : nat) (cell : Cell)
    : nat * Cell :=
  let val_to_check := longest_line cell in
  let maximum_value_for_col :=
    if bool_decide (maximum_value_for_col < val_to_check)
    then val_to_check else maximum_value_for_col in
  if until_max_width && bool_decide (MAX_WIDTH < maximum_value_for_col)
  then (MAX_WIDTH, {| text := text cell; wrap_text := true |})
  else (maximum_value_for_col, cell).

Fixpoint visit_column (until_max_width : bool) (maximum_value_for_col : nat)
    (col : list Cell) : nat * list Cell :=
  match col with
  | [] => (maximum_value_for_col, [])
  | cell :: col' =>
      let '(m, cell') := visit_cell until_max_width maximum_value_for_col cell in
      let '(m', col'') := visit_column until_max_width m col' in
      (m', cell' :: col'')
  end.

(** The loop over the columns, from the column numbered [col_index + 1]. *)
Fixpoint format_columns (until_max_width : bool) (col_index : nat)
    (cols : list (list Cell)) (widths : gmap nat nat) : list (list Cell) * gmap nat nat :=
  match cols with
  | [] => ([], widths)
  | col :: cols' =>
      let '(m, col') := visit_column until_max_width 0 col in
      let '(cols'', widths') :=
        format_columns until_max_width (S col_index) cols'
                       (<[col_index + 1 := m + 2]> widths) in
      (col' :: cols'', widths')
  end.

Definition _auto_format_cell_dimensions_ (ws : Worksheet) (until_max_width : bool)
    : Worksheet :=
  let '(cols, widths) := format_columns until_max_width 0 (iter_cols ws) (column_widths ws) in
  {| iter_cols := cols; column_widths := widths |}.

(** *** Vocabulary of the properties *)

(** A cell switched to wrapping when one of its own lines is longer than
    [MAX_WIDTH] and the width is capped; any other cell as it was. *)
Definition wrapped (until_max_width : bool) (cell : Cell) : Cell :=
  if until_max_width && bool_decide (MAX_WIDTH < longest_line cell)
  then {| text := text cell; wrap_text := true |}
  else cell.

(** The longest line of the column, capped at [MAX_WIDTH] when asked, plus
    two. *)
Definition fitted_width (until_max_width : bool) (col : list Cell) : nat :=
  let longest := max_list (map longest_line col) in
  (if until_max_width then longest `min` MAX_WIDTH else longest) + 2.

End UtilsSheets.

(** ** logging_logic.py *)

Module LoggingLogic.

(** A log record: the message, and [origin] for everything else the call
    records (time, file, function, line, level name). *)
Record LogRecord : Type := { message : string; origin : string }.

(** A formatter renders a record; [message_only] is
    [logging.Formatter("%(message)s")], which is also what a handler without
    a formatter uses. *)
Definition Formatter : Type := LogRecord -> string.

Definition message_only : Formatter := fun record => message record.

(** A handler: its formatter ([None] when none was set), its terminator, its
    level, and what it has written to its stream so far. *)
Record Handler : Type := {
  formatter : option Formatter;
  terminator : string;
  handler_level : Z;
  stream : list string
}.

(** A logger with its effective level and its own handlers; it is enabled
    and neither it nor its handlers carry filters. *)
Record Logger : Type := {
  level : Z;
  handlers : list Handler
}.

Definition INFO : Z := 20.

(** The string ["\n"]. *)
Definition newline : string := String "010"%char EmptyString.

Definition setFormatter (h : Handler) (fmt : option Formatter) : Handler :=
  {| formatter := fmt; terminator := terminator h;
     handler_level := handler_level h; stream := stream h |}.

Definition set_terminator (h : Handler) (t : string) : Handler :=
  {| formatter := formatter h; terminator := t;
     handler_level := handler_level h; stream := stream h |}.

(** [StreamHandler.emit]: the formatted message, then the terminator. *)
Definition emit (h : Handler) (record : LogRecord) : Handler :=
  {| formatter := formatter h; terminator := terminator h;
     handler_level := handler_level h;
     stream := stream h ++
               [(default message_only (formatter h) record ++ terminator h)%string] |}.

(** [logger.info(msg)] on the logger's own handlers; [origin] is what the
    call records besides the message. *)
Definition info (lg : Logger) (origin msg : string) : Logger :=
  if bool_decide (level lg <= INFO)%Z
  then {| level := level lg;
          handlers := map (fun h => if bool_decide (handler_level h <= INFO)%Z
                                    then emit h {| message := msg; origin := origin |}
                                    else h) (handlers lg) |}
  else lg.

(** [TqdmLogFormatter]: the logger and the formatters saved on entry. *)
Record TqdmLogFormatter : Type := {
  _logger : Logger;
  original_formatters : list (option Formatter)
}.

Definition __enter__ (lg : Logger) : TqdmLogFormatter :=
  {| _logger := {| level := level lg;
                   handlers := map (fun h => setFormatter (set_terminator h "")
                                                          (Some message_only))
                                   (handlers lg) |};
     original_formatters := map formatter (handlers lg) |}.

(** The loop over [zip(handlers, original_formatters)]: the handlers beyond
    the shorter list are left as they are. *)
Fixpoint restore (hs : list Handler) (fs : list (option Formatter)) : list Handler :=
  match hs, fs with
  | h :: hs', f :: fs' => setFormatter (set_terminator h newline) f :: restore hs' fs'
  | _, _ => hs
  end.

Definition __exit__ (self : TqdmLogFormatter) : Logger :=
  {| level := level (_logger self);
     handlers := restore (handlers (_logger self)) (original_formatters self) |}.

(** [TqdmLogger.write]: the message is logged inside the [with] block. *)
Definition write (lg : Logger) (origin buffer : string) : Logger :=
  let self := __enter__ lg in
  let logger := _logger self in
  __exit__ {| _logger := info logger origin buffer;
              original_formatters := original_formatters self |}.

End LoggingLogic.

(** ** The export of the report *)

Module ReportExport.

(** How [df_to_tmp_excel], as utils.py has it, ends for
    [create_report_from]: the outcome of the call, run with the names that
    utils.py binds. What the call does on the way is in
    [UtilsFiles.df_to_tmp_excel]. *)
Definition utils_export {DF : Type} (host : UtilsFiles.Host)
    (to_excel : DF -> string -> string -> result exn unit)
    (report : DF) (sheet_name : string) : result exn unit :=
  snd (UtilsFiles.df_to_tmp_excel Utils.module_globals host to_excel report sheet_name).

End ReportExport.

(** ** More inputs to run the code on *)

Module Cases.
Import Pandas SingleSheetReport Examples.

(** A method that lists a dataset the store does not have. *)
Definition stray : Method := {| method_name := "M3"; datasets := ["A"; "Z"; "B"] |}.

(** A scoring function that cannot read dataset B. *)
Definition fails_on_B : @score_function pyval :=
  fun q => if decide (client_path (file_client (contents q)) = "B")
           then Raise "unreadable"
           else name_length q.

(** Two values for dataset A, one for any other dataset. *)
Definition ragged_score (d : string) : @score pyval :=
  Tuple (if decide (d = "A") then [Some (PNum 1); Some (PNum 2)] else [Some (PNum 1)]).

Definition ragged : @score_function pyval :=
  fun q => Ok (ragged_score (client_path (file_client (contents q)))).

Definition client_at (d : string) : DatasetFileClient := {| client_path := d |}.

(** The length of the dataset's path, before it is handed back as a scalar
    or as a one-element tuple. *)
Definition path_score (q : RunQuery) : result string (option pyval) :=
  Ok (Some (PNum (path_length q))).

Definition path_of (d : string) : option pyval := Some (PNum (Z.of_nat (String.length d))).



(** A machine on which the temporary file is /tmp/report.xlsx, and a writer
    that succeeds. *)
Definition linux : UtilsFiles.Host :=
  {| UtilsFiles.path_exists := fun _ => true;
     UtilsFiles.platform_system := "Linux";
     UtilsFiles.tmp_name := "/tmp/report.xlsx" |}.

Definition written (report : DataFrame pyval) (path sheet_name : string) : result exn unit :=
  Ok tt.

(** A list of words, and column lists with a repeated name. *)
Definition words : list string := ["b"; "a"; "c"; "a"; "b"].

Definition ids : list Z := [1; 2; 2]%Z.
Definition amounts : list Z := [10; 20; 30]%Z.

(** A sheet with one column: a short cell, a cell of forty characters and a
    cell of two short lines; its width was 5. *)
Definition plain (s : string) : UtilsSheets.Cell :=
  {| UtilsSheets.text := s; UtilsSheets.wrap_text := false |}.

Definition sheet : UtilsSheets.Worksheet :=
  {| UtilsSheets.iter_cols :=
       [[plain "name"; plain "0123456789012345678901234567890123456789";
         plain (String "x" (String "010" "yz"))]];
     UtilsSheets.column_widths := {[1 := 5]} |}.

(** A logger at DEBUG with a handler that ends its lines with a semicolon
    and a handler for errors only. *)
Definition stamped : LoggingLogic.Formatter :=
  fun record => (LoggingLogic.origin record ++ ": " ++ LoggingLogic.message record)%string.

Definition api_logger : LoggingLogic.Logger :=
  {| LoggingLogic.level := 10;
     LoggingLogic.handlers :=
       [{| LoggingLogic.formatter := Some stamped; LoggingLogic.terminator := ";";
           LoggingLogic.handler_level := 0; LoggingLogic.stream := ["old"] |};
        {| LoggingLogic.formatter := None; LoggingLogic.terminator := LoggingLogic.newline;
           LoggingLogic.handler_level := 40; LoggingLogic.stream := [] |}] |}.

End Cases.

(** * Properties *)

(** ** Runs *)

Lemma bind_Ok {E X A B} (m : run E X A) (k : A -> run E X B) l b :
  bind m k = (l, Ok b) ->
  exists l1 a l2, m = (l1, Ok a) /\ k a = (l2, Ok b) /\ l = l1 ++ l2.
Proof.
  destruct m as [l1 [a|e]]; simpl; [|discriminate].
  destruct (k a) as [l2 r] eqn:Hk. intros [= <- ->]. eauto 6.
Qed.

Lemma for_loop_Ok {E X A S} (body : S -> A -> run E X S) (P : S -> Prop) xs :
  forall s l s',
    (forall s x l s', x ∈ xs -> P s -> body s x = (l, Ok s') -> P s') ->
    P s -> for_loop body s xs = (l, Ok s') -> P s'.
Proof.
  induction xs as [|x xs IH]; intros s l s' Hbody Hs; simpl.
  - by intros [= _ <-].
  - intros (l1 & s1 & l2 & H1 & H2 & _)%bind_Ok.
    eapply IH; [| |exact H2].
    + intros s0 y l0 s0' Hy. apply Hbody. by right.
    + eapply Hbody; [by left|exact Hs|exact H1].
Qed.

Lemma for_each_calls {E X A B} (ev : A -> E) (f : A -> B) (l : list A) :
  for_each (fun x => call (X := X) (ev x) (f x)) l = (map ev l, Ok (map f l)).
Proof.
  induction l as [|x l IH]; [done|].
  simpl. rewrite IH. simpl. by rewrite app_nil_r.
Qed.

(** ** Frames *)

Section FrameTheory.
Import Pandas.
Context {V dtype : Type}.
Implicit Types (df : DataFrame V) (d : string) (c : column_label).

Lemma writes_columns targets l : forall df, columns (writes df targets l) = columns df.
Proof. induction l as [|dv l IH]; intros df; simpl; [done|]. by rewrite IH. Qed.

Lemma write_row_rows df d targets vs d' cells' :
  (d', cells') ∈ rows (write_row df d targets vs) ->
  exists cells, (d', cells) ∈ rows df /\ (cells' = cells \/ d' = d).
Proof.
  unfold write_row; simpl. intros ([d0 cells] & Heq & Hin)%list_elem_of_fmap.
  simpl in Heq. destruct (decide (d0 = d)) as [->|Hne].
  - injection Heq as -> ->. eauto.
  - injection Heq as -> ->. eauto.
Qed.

Lemma writes_rows targets l : forall df d' cells',
  (d', cells') ∈ rows (writes df targets l) ->
  exists cells, (d', cells) ∈ rows df /\ (cells' = cells \/ d' ∈ map fst l).
Proof.
  induction l as [|[d vs] l IH]; intros df d' cells'; simpl.
  - eauto.
  - intros (cells1 & Hin & Hor)%IH.
    destruct Hor as [->|Hl].
    + apply write_row_rows in Hin as (cells & Hin & [->| ->]); simpl.
      * eauto.
      * exists cells. split; [done|]. right. by left.
    + apply write_row_rows in Hin as (cells & Hin & _).
      exists cells. split; [done|]. right. by right.
Qed.

Lemma loc_set_columns df labels targets values df' :
  loc_set df labels targets values = Ok df' -> columns df' = columns df.
Proof.
  unfold loc_set. repeat case_match; try discriminate.
  intros [= <-]. apply writes_columns.
Qed.

Lemma loc_set_rows df labels targets values df' d' cells' :
  loc_set df labels targets values = Ok df' ->
  (d', cells') ∈ rows df' ->
  exists cells, (d', cells) ∈ rows df /\ (cells' = cells \/ d' ∈ labels).
Proof.
  unfold loc_set. repeat case_match; try discriminate.
  intros [= <-] (cells & Hin & Hor)%writes_rows.
  exists cells. split; [done|]. destruct Hor as [->|Hl]; [by left|right].
  apply list_elem_of_fmap in Hl as ([d0 vs] & -> & Hz). simpl.
  by apply elem_of_zip_l in Hz.
Qed.

Lemma new_frame_rows idx cols d' cells :
  (d', cells) ∈ rows (new_frame (V := V) idx cols) -> existsb notna cells = false.
Proof.
  unfold new_frame; simpl. intros (d0 & [= -> ->] & _)%list_elem_of_fmap.
  induction cols; simpl; auto.
Qed.

Lemma dropna_all_rows df r :
  r ∈ rows (dropna_all df) <-> r ∈ rows df /\ existsb notna (snd r) = true.
Proof.
  unfold dropna_all; simpl. rewrite !list_elem_of_In. apply filter_In.
Qed.

Section Astype.
Variable key_selects : string -> column_label -> bool.
Variable cast : dtype -> option V -> option (option V).

Lemma astype_columns mapping df df' :
  astype key_selects cast mapping df = Ok df' -> columns df' = columns df.
Proof. unfold astype. repeat case_match; try discriminate. by intros [= <-]. Qed.

Lemma astype_rows mapping df df' :
  astype key_selects cast mapping df = Ok df' ->
  rows df' = map (fun r => (fst r, cast_row key_selects cast mapping (columns df) (snd r)))
                 (rows df).
Proof. unfold astype. repeat case_match; try discriminate. by intros [= <-]. Qed.

End Astype.
End FrameTheory.

(** ** The report *)

Section ReportTheory.
Import Pandas SingleSheetReport.
Context {V dtype : Type}.
Variable DATA_SET_NAME : string.
Variable key_selects : string -> column_label -> bool.
Variable cast : dtype -> option V -> option (option V).

Implicit Types (func : @score_function V) (method : Method) (db : DatabaseClient).
Implicit Types (clients : gmap string DatasetFileClient).


Lemma quiet_bind {A B} (m : run event exn A) (k : A -> run event exn B) :
  quiet m -> (forall a, quiet (k a)) -> quiet (bind m k).
Proof.
  intros Hm Hk msg. destruct m as [l [a|e]]; simpl.
  - specialize (Hk a msg). by destruct (k a).
  - intros [= ->]. by apply (Hm msg).
Qed.

Lemma quiet_call {A B} ev (a : A) (k : A -> run event exn B) :
  quiet (k a) -> quiet (bind (call ev a) k).
Proof. intros Hk msg. unfold bind, call. specialize (Hk msg). by destruct (k a). Qed.

Lemma quiet_for_each {A B} (f : A -> run event exn B) l :
  (forall x, quiet (f x)) -> quiet (for_each f l).
Proof.
  intros Hf. induction l as [|x l IH]; simpl; [by intros msg|].
  apply quiet_bind; [done|]. intros y. apply quiet_bind; [done|]. by intros ys msg.
Qed.

Lemma quiet_for_loop {A S} (body : S -> A -> run event exn S) l :
  (forall s x, quiet (body s x)) -> forall s, quiet (for_loop body s l).
Proof.
  intros Hf. induction l as [|x l IH]; intros s; simpl; [by intros msg|].
  by apply quiet_bind.
Qed.

Lemma quiet_collect method clients func names :
  quiet (_get_score_for_method_ DATA_SET_NAME method clients func names).
Proof.
  unfold _get_score_for_method_. apply quiet_bind.
  - apply quiet_for_each. intros d. unfold score_row. apply quiet_bind.
    + intros msg. unfold getitem. by case_match.
    + intros fc. apply quiet_bind; [|by intros s msg].
      intros msg. unfold apply_score. by case_match.
  - intros data msg. unfold score_frame. by repeat case_match.
Qed.

Lemma quiet_loc_set (df : DataFrame V) labels targets values :
  quiet (lift (E := event) (loc_set df labels targets values)).
Proof. intros msg. unfold loc_set. by repeat case_match. Qed.

Lemma quiet_astype mapping (df : DataFrame V) :
  quiet (lift (E := event) (astype key_selects cast mapping df)).
Proof. intros msg. unfold astype. by repeat case_match. Qed.

(** The names [set(methods) - set(all_methods)] holds. *)
Lemma unknown_methods (methods known : list string) x :
  x ∈ elements ((list_to_set methods : gset string) ∖ list_to_set known) <->
  x ∈ methods /\ x ∉ known.
Proof. rewrite elem_of_elements, elem_of_difference, !elem_of_list_to_set. done. Qed.

Lemma pruned_valid methods fields func db :
  (forall x, x ∈ methods -> x ∈ get_all_methods db) ->
  quiet (pruned_report_df DATA_SET_NAME methods fields func db).
Proof.
  intros Hsub. unfold pruned_report_df.
  apply quiet_call. case_bool_decide as Hlen.
  - exfalso. destruct (elements _) as [|x errs] eqn:He; [simpl in Hlen; lia|].
    assert (Hx : x ∈ x :: errs) by by left.
    rewrite <- He in Hx. apply unknown_methods in Hx as [Hx Hn]. by apply Hn, Hsub.
  - apply quiet_call.
    apply quiet_bind; [apply quiet_for_each; by intros x msg|]. intros instances.
    apply quiet_bind; [|by intros r msg].
    apply quiet_for_loop. intros r m.
    apply quiet_call.
    apply quiet_bind; [apply quiet_collect|]. intros fv. apply quiet_loc_set.
Qed.

Lemma report_valid methods fields dtypes func db :
  (forall x, x ∈ methods -> x ∈ get_all_methods db) ->
  quiet (get_report_df_from DATA_SET_NAME key_selects cast methods fields dtypes func db).
Proof.
  intros Hsub. unfold get_report_df_from.
  apply quiet_bind; [by apply pruned_valid|]. intros r. apply quiet_astype.
Qed.

Lemma report_unknown methods fields dtypes func db :
  (exists x, x ∈ methods /\ x ∉ get_all_methods db) ->
  get_report_df_from DATA_SET_NAME key_selects cast methods fields dtypes func db =
    ([GetAllMethods],
     Raise (MethodNotFound (String.concat ", "
       (elements ((list_to_set methods : gset string) ∖ list_to_set (get_all_methods db)))))).
Proof.
  intros (x & Hx & Hn). unfold get_report_df_from, pruned_report_df. simpl.
  case_bool_decide as Hlen; [done|]. exfalso. apply Hlen.
  assert (Hin : x ∈ elements ((list_to_set methods : gset string)
                                ∖ list_to_set (get_all_methods db)))
    by by apply unknown_methods.
  destruct (elements _); [by apply elem_of_nil in Hin|simpl; lia].
Qed.

(** C1. [get_report_df_from] raises [MethodNotFound] if and only if a
    requested method is unknown to the store; it then raises right after
    [get_all_methods], the only call made, and the message is the
    comma-joined list of the unknown names, each once. *)
Theorem method_not_found_iff_unknown methods fields dtypes func db :
  ((exists msg,
      snd (get_report_df_from DATA_SET_NAME key_selects cast methods fields dtypes func db) =
        Raise (MethodNotFound msg)) <->
   (exists x, x ∈ methods /\ x ∉ get_all_methods db)) /\
  ((exists x, x ∈ methods /\ x ∉ get_all_methods db) ->
   exists errors,
     NoDup errors /\
     (forall x, x ∈ errors <-> x ∈ methods /\ x ∉ get_all_methods db) /\
     get_report_df_from DATA_SET_NAME key_selects cast methods fields dtypes func db =
       ([GetAllMethods], Raise (MethodNotFound (String.concat ", " errors)))).
Proof.
  split; [split|].
  - intros [msg Hmsg].
    destruct (decide (Forall (fun x => x ∈ get_all_methods db) methods)) as [Hall|Hex].
    + exfalso. rewrite Forall_forall in Hall.
      by apply (report_valid methods fields dtypes func db Hall msg).
    + apply not_Forall_Exists in Hex; [|intros x; apply _].
      apply Exists_exists in Hex. exact Hex.
  - intros Hex. rewrite (report_unknown _ _ _ _ _ Hex). eauto.
  - intros Hex.
    exists (elements ((list_to_set methods : gset string) ∖ list_to_set (get_all_methods db))).
    split; [apply NoDup_elements|]. split.
    + apply unknown_methods.
    + by apply report_unknown.
Qed.


Lemma for_each_Ok {E X A B} (f : A -> run E X B) (R : A -> B -> Prop) xs :
  (forall x l y, x ∈ xs -> f x = (l, Ok y) -> R x y) ->
  forall l ys, for_each f xs = (l, Ok ys) -> Forall2 R xs ys.
Proof.
  induction xs as [|x xs IH]; intros Hf l ys; simpl.
  - intros [= _ <-]. constructor.
  - intros (l1 & y & l2 & H1 & H2 & _)%bind_Ok.
    apply bind_Ok in H2 as (l3 & ys' & l4 & H3 & [= _ <-] & _).
    constructor.
    + eapply Hf; [by left|exact H1].
    + eapply IH; [|exact H3]. intros x' l' y' Hx'. apply Hf. by right.
Qed.

Lemma for_each_total {E X A B} (f : A -> run E X B) xs :
  (forall x, x ∈ xs -> exists l y, f x = (l, Ok y)) ->
  exists l ys, for_each f xs = (l, Ok ys).
Proof.
  induction xs as [|x xs IH]; intros Hf; simpl; [by eexists _, _|].
  destruct (Hf x) as (l1 & y & Hx); [by left|].
  destruct IH as (l2 & ys & Hxs); [intros x' Hx'; apply Hf; by right|].
  rewrite Hx, Hxs. simpl. by eexists _, _.
Qed.

Lemma score_row_Ok method clients func d l row :
  score_row method clients func d = (l, Ok row) -> row_of method clients func d row.
Proof.
  unfold score_row.
  intros (l1 & fc & l2 & Hfc & H & _)%bind_Ok.
  apply bind_Ok in H as (l3 & s & l4 & Hs & [= _ <-] & _).
  unfold lift, getitem in Hfc. destruct (clients !! d) as [fc'|] eqn:Hd; [|discriminate].
  injection Hfc as _ ->.
  unfold apply_score in Hs.
  destruct (func (query_for method fc)) as [s'|p] eqn:Hf; [|discriminate].
  injection Hs as _ ->.
  split; [by destruct s|]. exists fc, s. by destruct s.
Qed.

Lemma score_row_total method clients func d fc s :
  clients !! d = Some fc -> func (query_for method fc) = Ok s ->
  score_row method clients func d = ([ScoreFunc (query_for method fc)], Ok (d, score_values s)).
Proof.
  intros Hfc Hs. unfold score_row, lift, getitem, apply_score.
  rewrite Hfc. simpl. rewrite Hs. by destruct s.
Qed.

Lemma score_frame_Ok cols (data : list (string * list (option V))) table :
  score_frame cols data = Ok table ->
  score_columns table = cols /\
  map fst (score_rows table) = map fst data /\
  (Forall (fun r => S (length (snd r)) = length cols) data -> score_rows table = data).
Proof.
  unfold score_frame. destruct data as [|r data].
  - intros [= <-]. auto.
  - case_decide as Hw; [|discriminate]. intros [= <-]. simpl.
    split; [done|]. split.
    + f_equal. by rewrite map_map.
    + intros Hall. set (w := max_list _) in *.
      change (map (fun r0 => (fst r0, snd r0 ++ replicate (w - S (length (snd r0))) None))
                  (r :: data) = r :: data).
      rewrite <- (map_id (r :: data)) at 2. apply map_ext_in.
      intros [d vs] Hin. simpl. rewrite Forall_forall in Hall.
      apply list_elem_of_In, Hall in Hin. simpl in Hin.
      f_equal. transitivity (vs ++ []); [f_equal|apply app_nil_r].
      match goal with |- replicate ?n _ = _ => replace n with 0 by lia end. done.
Qed.

Lemma score_frame_wide cols (data : list (string * list (option V))) :
  Forall (fun r => S (length (snd r)) = length cols) data ->
  exists table, score_frame cols data = Ok table.
Proof.
  intros Hwide. unfold score_frame. destruct data as [|r data]; [by eexists|].
  case_decide as Hw; [by eexists|]. exfalso. apply Hw.
  set (ws := map _ (r :: data)).
  assert (Hin : max_list ws ∈ ws) by by apply max_list_elem_of.
  apply list_elem_of_fmap in Hin as (r' & -> & Hin).
  rewrite Forall_forall in Hwide. by apply Hwide.
Qed.

(** The rows collected for a method carry its dataset names, in order. *)
Lemma collected_names method clients func names l table :
  _get_score_for_method_ DATA_SET_NAME method clients func names = (l, Ok table) ->
  map fst (score_rows table) = datasets method.
Proof.
  unfold _get_score_for_method_.
  intros (l1 & data & l2 & Hdata & [= _ Hframe] & _)%bind_Ok.
  apply score_frame_Ok in Hframe as (_ & -> & _).
  assert (Hrows : Forall2 (fun d row => fst row = d) (datasets method) data).
  { eapply for_each_Ok; [|exact Hdata]. intros d l0 row _ Hrow.
    by destruct (score_row_Ok _ _ _ _ _ _ Hrow). }
  clear -Hrows. induction Hrows as [|d row ds rs Hrow _ IH]; simpl; [done|].
  by f_equal.
Qed.

(** C6. When the mapping holds a file client for each of the method's
    datasets and the scoring function returns one value per score name, the
    collector returns a table with one row per dataset of the method, in
    that order, each row the dataset name followed by its score values. *)
Theorem collector_rows method clients func names :
  (forall d, d ∈ datasets method ->
     exists fc s, clients !! d = Some fc /\ func (query_for method fc) = Ok s /\
                  length (score_values s) = length names) ->
  exists l table,
    _get_score_for_method_ DATA_SET_NAME method clients func names = (l, Ok table) /\
    score_columns table = DATA_SET_NAME :: names /\
    Forall2 (row_of method clients func) (datasets method) (score_rows table).
Proof.
  intros Hcover.
  destruct (for_each_total (score_row method clients func) (datasets method))
    as (l1 & data & Hdata).
  { intros d (fc & s & Hfc & Hs & _)%Hcover.
    rewrite (score_row_total _ _ _ _ _ _ Hfc Hs). by eexists _, _. }
  assert (Hrows : Forall2 (fun d row => row_of method clients func d row /\
                             S (length (snd row)) = S (length names))
                          (datasets method) data).
  { eapply for_each_Ok; [|exact Hdata]. intros d l row Hd Hrow.
    destruct (Hcover d Hd) as (fc & s & Hfc & Hs & Hlen).
    rewrite (score_row_total _ _ _ _ _ _ Hfc Hs) in Hrow. injection Hrow as _ <-.
    split; [|by rewrite <- Hlen]. split; [done|]. by exists fc, s. }
  assert (Hwide : Forall (fun r => S (length (snd r)) = length (DATA_SET_NAME :: names)) data).
  { clear -Hrows. induction Hrows as [|d row ds rs [_ Hlen] _ IH]; constructor; auto. }
  destruct (score_frame_wide _ _ Hwide) as [table Htable].
  exists (l1 ++ []), table.
  destruct (score_frame_Ok _ _ _ Htable) as (Hcols & _ & Hsame).
  split; [|split; [done|]].
  - unfold _get_score_for_method_. rewrite Hdata. simpl. by rewrite Htable.
  - rewrite (Hsame Hwide). clear -Hrows.
    induction Hrows as [|d row ds rs [Hrow _] _ IH]; constructor; auto.
Qed.

Lemma pruned_merged methods fields func db l r :
  pruned_report_df DATA_SET_NAME methods fields func db = (l, Ok r) ->
  merged methods fields db r /\
  forall row, row ∈ rows r -> existsb notna (snd row) = true.
Proof.
  unfold pruned_report_df.
  intros (l1 & known & l2 & [= _ <-] & H & _)%bind_Ok.
  case_bool_decide; [discriminate|].
  apply bind_Ok in H as (l3 & all_datasets & l4 & [= _ <-] & H & _).
  apply bind_Ok in H as (l5 & instances & l6 & _ & H & _).
  apply bind_Ok in H as (l7 & r0 & l8 & Hloop & [= _ <-] & _).
  assert (Hm : merged methods fields db r0).
  { eapply (for_loop_Ok _ (merged methods fields db)); [| |exact Hloop].
    - intros s m l0 s' Hin [Hcols Hrows].
      intros (l9 & mi & l10 & [= _ <-] & H & _)%bind_Ok.
      apply bind_Ok in H as (l11 & fv & l12 & Hfv & Hset & _).
      unfold lift in Hset. injection Hset as _ Hset.
      apply collected_names in Hfv.
      split.
      + by rewrite (loc_set_columns _ _ _ _ _ Hset).
      + intros d cells Hd Hna.
        destruct (loc_set_rows _ _ _ _ _ _ _ Hset Hd) as (cells0 & Hd0 & [->|Hl]).
        * eauto.
        * exists m. split; [done|]. by rewrite Hfv in Hl.
    - split; [done|]. intros d cells Hd Hna.
      apply new_frame_rows in Hd. congruence. }
  split.
  - destruct Hm as [Hcols Hrows]. split; [done|].
    intros d cells [Hd _]%dropna_all_rows. by apply Hrows.
  - intros row [_ Hna]%dropna_all_rows. done.
Qed.

(** C4. Whatever was pruned, the columns of a returned table are the
    Cartesian product of the field names and the methods, fields first. *)
Theorem returned_columns methods fields dtypes func db l r :
  get_report_df_from DATA_SET_NAME key_selects cast methods fields dtypes func db = (l, Ok r) ->
  columns r = list_prod fields methods.
Proof.
  unfold get_report_df_from.
  intros (l1 & r0 & l2 & Hpruned & [= _ Hcast] & _)%bind_Ok.
  apply pruned_merged in Hpruned as [[Hcols _] _].
  by rewrite (astype_columns _ _ _ _ _ Hcast).
Qed.

Lemma cast_row_lookup mapping cols cells j v :
  cells !! j = Some v ->
  cast_row key_selects cast mapping cols cells !! j =
    Some (match cols !! j with
          | Some c => default v (cast_cell key_selects cast mapping c v)
          | None => v
          end).
Proof. intros Hj. unfold cast_row. by rewrite list_lookup_imap, Hj. Qed.

(** C5. Every row of a returned table has a cell that is not null, and its
    dataset belongs to a requested method: the rows no method wrote are
    gone. The conversions are taken to turn no value into a null. *)
Theorem returned_rows_are_written methods fields dtypes func db l r :
  (forall d v c, cast d (Some v) = Some c -> c <> None) ->
  get_report_df_from DATA_SET_NAME key_selects cast methods fields dtypes func db = (l, Ok r) ->
  forall row, row ∈ rows r ->
    (exists c, c ∈ snd row /\ notna c = true) /\
    (exists m, m ∈ methods /\ fst row ∈ datasets (get_method db m)).
Proof.
  intros Hcast. unfold get_report_df_from.
  intros (l1 & r0 & l2 & Hpruned & [= _ Hastype] & _)%bind_Ok row.
  apply pruned_merged in Hpruned as [[Hcols Hwritten] Hnotna].
  rewrite (astype_rows _ _ _ _ _ Hastype).
  intros ([d cells] & -> & Hin)%list_elem_of_fmap. simpl.
  specialize (Hnotna _ Hin). simpl in Hnotna. split; [|by eapply Hwritten].
  apply existsb_exists in Hnotna as ([v|] & Hv & Hna); [|discriminate].
  apply list_elem_of_In, list_elem_of_lookup in Hv as [j Hj].
  eexists. split.
  - apply list_elem_of_lookup. exists j. by apply cast_row_lookup.
  - destruct (columns r0 !! j) as [c|]; [|done].
    unfold cast_cell. destruct (column_dtype _ _ _) as [dt|]; [|done].
    destruct (cast dt (Some v)) as [[v'|]|] eqn:Hc; simpl; try done.
    by apply Hcast in Hc.
Qed.

Lemma for_each_ext {E X A B} (f g : A -> run E X B) xs :
  (forall x, f x = g x) -> for_each f xs = for_each g xs.
Proof. intros Hfg. induction xs as [|x xs IH]; simpl; [done|]. by rewrite Hfg, IH. Qed.

Lemma for_loop_ext {E X A S} (f g : S -> A -> run E X S) xs :
  (forall s x, f s x = g s x) -> forall s, for_loop f s xs = for_loop g s xs.
Proof.
  intros Hfg. induction xs as [|x xs IH]; intros s; simpl; [done|].
  rewrite Hfg. destruct (g s x) as [l [s'|e]]; simpl; [|done]. by rewrite IH.
Qed.

Lemma bind_ext {E X A B} (m : run E X A) (k k' : A -> run E X B) :
  (forall a, k a = k' a) -> bind m k = bind m k'.
Proof. intros Hk. destruct m as [l [a|e]]; simpl; [|done]. by rewrite Hk. Qed.

Lemma collect_scalar_tuple (h : RunQuery -> result string (option V)) method clients names :
  _get_score_for_method_ DATA_SET_NAME method clients (as_scalar h) names =
    _get_score_for_method_ DATA_SET_NAME method clients (as_tuple h) names.
Proof.
  unfold _get_score_for_method_. f_equal. apply for_each_ext. intros d.
  unfold score_row. destruct (getitem clients d) as [fc|e]; simpl; [|done].
  unfold apply_score, as_scalar, as_tuple. by destruct (h _).
Qed.

Lemma list_prod_nil_r {A B} (l : list A) : list_prod l (@nil B) = [].
Proof. induction l; simpl; auto. Qed.

Lemma dict_set_head {A} k v k0 v0 (d : list (string * A)) :
  exists v', dict_set k v ((k0, v0) :: d) = (k0, v') :: tail (dict_set k v ((k0, v0) :: d)).
Proof. simpl. case_decide; subst; eauto. Qed.

Lemma dict_of_head {A} k v (items : list (string * A)) :
  exists v' d, dict_of ((k, v) :: items) = (k, v') :: d.
Proof.
  unfold dict_of. simpl. generalize (@nil (string * A)) as d. revert v.
  induction items as [|[k1 v1] items IH]; intros v d; simpl; [eauto|].
  case_decide; subst; apply IH.
Qed.

Lemma no_unknown (methods known : list string) :
  (forall x, x ∈ methods -> x ∈ known) ->
  elements ((list_to_set methods : gset string) ∖ list_to_set known) = [].
Proof.
  intros Hsub. apply elem_of_nil_inv. intros x [Hx Hn]%unknown_methods. by apply Hn, Hsub.
Qed.

Lemma pruned_no_methods fields func db :
  pruned_report_df DATA_SET_NAME [] fields func db =
    (GetAllMethods :: GetAllDatasets :: map GetDataset (get_all_datasets db),
     Ok {| columns := []; rows := [] |}).
Proof.
  unfold pruned_report_df, bind at 1, call at 1.
  rewrite no_unknown; [|by intros x Hx%elem_of_nil].
  rewrite bool_decide_eq_false_2; [|simpl; lia].
  unfold bind at 1, call at 1.
  rewrite (for_each_calls (X := exn) GetDataset (get_dataset db)). simpl.
  rewrite app_nil_r, list_prod_nil_r.
  do 3 f_equal. unfold dropna_all, new_frame. simpl. f_equal.
  induction (get_all_datasets db); simpl; auto.
Qed.

(** C3, amended. With no method requested the calls made are the
    enumeration of the methods and of the datasets and the lookup of each
    dataset, and the pruned table has no column and no row. It is returned
    when no (field, dtype) pair is declared; otherwise the coercion raises
    [KeyError] for the first declared field, which labels no column. *)
Theorem no_methods_report fields dtypes func db :
  get_report_df_from DATA_SET_NAME key_selects cast [] fields dtypes func db =
    (GetAllMethods :: GetAllDatasets :: map GetDataset (get_all_datasets db),
     match zip fields dtypes with
     | [] => Ok {| columns := []; rows := [] |}
     | (field, _) :: _ => Raise (KeyError field)
     end).
Proof.
  unfold get_report_df_from. rewrite pruned_no_methods. simpl. rewrite app_nil_r.
  f_equal. destruct (zip fields dtypes) as [|[field dt] items]; [done|].
  destruct (dict_of_head field dt items) as (dt' & d & ->). done.
Qed.

Lemma astype_missing_key mapping (df : DataFrame V) k d :
  (k, d) ∈ mapping -> contains df k = false ->
  exists k', astype key_selects cast mapping df = Raise (KeyError k').
Proof.
  intros Hin Hk. unfold astype.
  destruct (find _ mapping) as [kd|] eqn:Hfind; [by eexists|].
  apply list_elem_of_In in Hin. apply (find_none _ _ Hfind) in Hin.
  simpl in Hin. by rewrite Hk in Hin.
Qed.

Lemma astype_keys_found mapping (df : DataFrame V) :
  (forall k d, (k, d) ∈ mapping -> contains df k = true) ->
  find (fun kd : string * dtype => negb (contains df (fst kd))) mapping = None.
Proof.
  intros Hall. destruct (find _ mapping) as [[k d]|] eqn:Hfind; [|done].
  apply find_some in Hfind as [Hin Hk]. apply list_elem_of_In, Hall in Hin.
  simpl in Hk. by rewrite Hin in Hk.
Qed.

Lemma column_value (df : DataFrame V) row j v :
  row ∈ rows df -> snd row !! j = Some v -> v ∈ column_values df j.
Proof.
  intros Hrow Hj. unfold column_values. apply list_elem_of_fmap.
  exists row. split; [|done]. by rewrite Hj.
Qed.

Lemma failing_column_None mapping (df : DataFrame V) j c row v :
  failing_column key_selects cast mapping df = None ->
  columns df !! j = Some c -> row ∈ rows df -> snd row !! j = Some v ->
  is_Some (cast_cell key_selects cast mapping c v).
Proof.
  unfold failing_column. intros Hnone Hc Hrow Hv.
  destruct (find _ (imap pair (columns df))) as [jc|] eqn:Hfind; [discriminate|].
  assert (Hin : In (j, c) (imap pair (columns df))).
  { apply list_elem_of_In, elem_of_lookup_imap. by exists j, c. }
  apply (find_none _ _ Hfind) in Hin. simpl in Hin.
  destruct (cast_cell key_selects cast mapping c v) as [w|] eqn:Hcast; [by eexists|].
  exfalso. apply not_true_iff_false in Hin. apply Hin, existsb_exists.
  exists None. split; [|done].
  apply list_elem_of_In, list_elem_of_fmap. exists v. split; [done|].
  by eapply column_value.
Qed.

Lemma failing_column_Some mapping (df : DataFrame V) j c row v :
  columns df !! j = Some c -> row ∈ rows df -> snd row !! j = Some v ->
  cast_cell key_selects cast mapping c v = None ->
  is_Some (failing_column key_selects cast mapping df).
Proof.
  intros Hc Hrow Hv Hcast.
  destruct (failing_column key_selects cast mapping df) as [c'|] eqn:Hf; [by eexists|].
  destruct (failing_column_None _ _ _ _ _ _ Hf Hc Hrow Hv) as [w Hw]. congruence.
Qed.

(** With every key contained in the frame, a cell that does not convert in a
    column the mapping designates makes [astype] raise: nothing is passed
    for [errors], so nothing is swallowed. Under [by_label] the mapping
    designates no column of the report. *)
Lemma unconvertible_cell_raises mapping (df : DataFrame V) j c row v :
  (forall k d, (k, d) ∈ mapping -> contains df k = true) ->
  columns df !! j = Some c -> row ∈ rows df -> snd row !! j = Some v ->
  cast_cell key_selects cast mapping c v = None ->
  exists msg, astype key_selects cast mapping df = Raise (ValueError msg).
Proof.
  intros Hall Hc Hrow Hv Hcast. unfold astype.
  rewrite (astype_keys_found _ _ Hall).
  destruct (failing_column_Some _ _ _ _ _ _ Hc Hrow Hv Hcast) as [c' ->]. by eexists.
Qed.

Lemma astype_cells mapping (df r : DataFrame V) i row' j v' :
  astype key_selects cast mapping df = Ok r ->
  rows r !! i = Some row' -> snd row' !! j = Some v' ->
  exists row v, rows df !! i = Some row /\ snd row !! j = Some v /\
    match columns df !! j with
    | Some c => cast_cell key_selects cast mapping c v = Some v'
    | None => v' = v
    end.
Proof.
  intros Hcast Hi Hj.
  assert (Hf : failing_column key_selects cast mapping df = None).
  { unfold astype in Hcast. repeat case_match; try discriminate. done. }
  rewrite (astype_rows _ _ _ _ _ Hcast), list_lookup_fmap in Hi.
  destruct (rows df !! i) as [row|] eqn:Hrow; [|discriminate].
  injection Hi as <-. simpl in Hj. unfold cast_row in Hj.
  rewrite list_lookup_imap in Hj.
  destruct (snd row !! j) as [v|] eqn:Hv; [|discriminate]. injection Hj as <-.
  exists row, v. split; [done|]. split; [done|].
  destruct (columns df !! j) as [c|] eqn:Hc; [|done].
  destruct (failing_column_None _ _ j c row v Hf Hc) as [w Hw]; [|done|].
  - by eapply list_elem_of_lookup_2.
  - by rewrite Hw.
Qed.

End ReportTheory.

(** ** The lookup [get_value] *)

Section LookupTheory.
Import Utils.
Context {V : Type}.
Variable eqb : V -> V -> bool.
Implicit Types (df : DataFrame V) (column wanted : list V).

Lemma assoc_loc_mask df mask col :
  assoc col (loc_mask df mask) = select mask <$> assoc col df.
Proof.
  unfold loc_mask. induction df as [|[c vs] df IH]; simpl; [done|].
  by case_decide.
Qed.

Lemma select_first column search_val wanted i x v :
  column !! i = Some x -> eqb x search_val = true ->
  (forall j y, j < i -> column !! j = Some y -> eqb y search_val = false) ->
  wanted !! i = Some v ->
  exists rest, select (map (fun y => eqb y search_val) column) wanted = v :: rest.
Proof.
  revert i wanted. induction column as [|c column IH]; intros i wanted Hx Hm Hbefore Hv.
  - by rewrite lookup_nil in Hx.
  - destruct wanted as [|w wanted]; [by rewrite lookup_nil in Hv|].
    destruct i as [|i]; simpl in Hx, Hv.
    + injection Hx as ->. injection Hv as ->. unfold select. simpl. rewrite Hm. simpl.
      by eexists.
    + assert (Hc : eqb c search_val = false) by (apply (Hbefore 0); [lia|done]).
      unfold select. simpl. rewrite Hc. simpl. apply (IH i); try done.
      intros j y Hj Hy. apply (Hbefore (S j)); [lia|done].
Qed.

Lemma select_none column search_val wanted :
  (forall x, x ∈ column -> eqb x search_val = false) ->
  select (map (fun y => eqb y search_val) column) wanted = [].
Proof.
  revert wanted. induction column as [|c column IH]; intros wanted Hnone; [done|].
  destruct wanted as [|w wanted]; [done|].
  unfold select. simpl. rewrite (Hnone c); [|by left]. simpl.
  apply IH. intros x Hx. apply Hnone. by right.
Qed.

(** In utils.py itself the name is not bound: the module neither imports nor
    defines [SearchValNotFound], so there the handler ends in [NameError]. *)
Lemma get_value_unbound df search_col_name search_val get_col column wanted :
  assoc search_col_name df = Some column -> assoc get_col df = Some wanted ->
  (forall x, x ∈ column -> eqb x search_val = false) ->
  get_value eqb module_globals df search_col_name search_val get_col =
    ([], Raise (NameError "SearchValNotFound")).
Proof.
  intros Hs Hg Hnone. unfold get_value, getitem. rewrite Hs. simpl.
  rewrite assoc_loc_mask, Hg. simpl. rewrite (select_none _ _ _ Hnone).
  rewrite bool_decide_eq_false_2; [done|]. vm_compute. intros H. inversion H.
Qed.

End LookupTheory.

(** ** The index-centred report *)

Section IndexCenteredTheory.
Import SingleIndexCenteredReport.
Context {A V dtype : Type} `{EqDecision A}.
Variable cast : dtype -> option V -> option (option V).

Lemma datasets_unbound : (module_globals (A := A)) !! "datasets" = None.
Proof. reflexivity. Qed.

Lemma unbound_name_raises globals inputs column_names dtypes
    (func : A -> result string (list (option V))) :
  globals !! "datasets" = None ->
  get_index_centered_report_df_from cast globals inputs column_names dtypes func =
    ([], Raise (NameError "datasets")).
Proof. intros Hg. unfold get_index_centered_report_df_from. by rewrite Hg. Qed.

(** C10. In its module, [get_index_centered_report_df_from] returns no table:
    whatever the inputs, the column names, the dtypes and the function, the
    loop header looks up [datasets], a name the module does not bind, and
    the call ends in [NameError] before [func] is called once. *)
Theorem index_centered_report_raises_name_error inputs column_names dtypes
    (func : A -> result string (list (option V))) :
  get_index_centered_report_df_from cast module_globals inputs column_names dtypes func =
    ([], Raise (NameError "datasets")).
Proof. apply unbound_name_raises, datasets_unbound. Qed.

End IndexCenteredTheory.

(** ** The properties at work *)

Section Scenario.
Import Pandas SingleSheetReport Examples.

Local Abbreviation report := (get_report_df_from "Data Set" by_field convert).

Lemma scenario_pruned :
  pruned_report_df "Data Set" ["M1"; "M2"] ["score"] name_length store =
    (scenario_log, Ok scenario_table).
Proof. vm_compute. reflexivity. Qed.

Lemma scenario_run :
  report ["M1"; "M2"] ["score"] [DFloat] name_length store = (scenario_log, Ok scenario_table).
Proof. vm_compute. reflexivity. Qed.

Lemma ghost_is_unknown : exists x, x ∈ ["M1"; "ghost"] /\ x ∉ get_all_methods store.
Proof.
  exists "ghost". split; [by right; left|].
  intros Hin%list_elem_of_In. simpl in Hin. intuition discriminate.
Qed.

Lemma method_not_found_witness :
  exists errors,
    NoDup errors /\
    (forall x, x ∈ errors <-> x ∈ ["M1"; "ghost"] /\ x ∉ get_all_methods store) /\
    report ["M1"; "ghost"] ["score"] [DFloat] name_length store =
      ([GetAllMethods], Raise (MethodNotFound (String.concat ", " errors))).
Proof.
  apply (proj2 (method_not_found_iff_unknown "Data Set" by_field convert
                  ["M1"; "ghost"] ["score"] [DFloat] name_length store)).
  apply ghost_is_unknown.
Defined.

Lemma returned_columns_witness :
  columns scenario_table = list_prod ["score"] ["M1"; "M2"].
Proof.
  apply (returned_columns "Data Set" by_field convert
           ["M1"; "M2"] ["score"] [DFloat] name_length store scenario_log).
  apply scenario_run.
Defined.

Lemma convert_keeps_values d v c : convert d (Some v) = Some c -> c <> None.
Proof. destruct d, v; simpl; congruence. Qed.

Lemma returned_rows_witness :
  (exists c, c ∈ [Some (PNum 1); None] /\ notna c = true) /\
  (exists m, m ∈ ["M1"; "M2"] /\ "A" ∈ datasets (get_method store m)).
Proof.
  apply (returned_rows_are_written "Data Set" by_field convert
           ["M1"; "M2"] ["score"] [DFloat] name_length store scenario_log scenario_table
           convert_keeps_values scenario_run ("A", [Some (PNum 1); None])).
  simpl. by left.
Defined.

Lemma clients_cover_M1 d :
  d ∈ datasets (get_method store "M1") ->
  exists fc s, clients !! d = Some fc /\
               name_length (query_for (get_method store "M1") fc) = Ok s /\
               length (score_values s) = length ["score"].
Proof.
  simpl. intros Hd%list_elem_of_In. simpl in Hd.
  destruct Hd as [<-|[<-|[]]]; by eexists _, _.
Qed.

Lemma collector_rows_witness :
  exists l table,
    _get_score_for_method_ "Data Set" (get_method store "M1") clients name_length ["score"] =
      (l, Ok table) /\
    score_columns table = ["Data Set"; "score"] /\
    Forall2 (row_of (get_method store "M1") clients name_length) ["A"; "B"]
            (score_rows table).
Proof.
  apply (collector_rows "Data Set" (get_method store "M1") clients name_length ["score"]).
  apply clients_cover_M1.
Defined.

(** With no method and one declared dtype the coercion raises. *)
Lemma no_methods_counterexample :
  report [] ["score"] [DFloat] name_length store =
    ([GetAllMethods; GetAllDatasets; GetDataset "A"; GetDataset "B"; GetDataset "C"],
     Raise (KeyError "score")).
Proof. vm_compute. reflexivity. Qed.

(** Where the key designates no column, the same score stays as it is. *)
Example text_score_by_label :
  snd (get_report_df_from "Data Set" by_label convert ["M1"] ["score"] [DInt] text_score store) =
    Ok {| columns := [("score", "M1")];
          rows := [("A", [Some (PStr "abc")]); ("B", [Some (PStr "abc")])] |}.
Proof. vm_compute. reflexivity. Qed.

End Scenario.

Section LookupScenario.
Import Utils Examples.

(** No row matches and the wanted column is missing: [KeyError], although the
    error class is bound. *)
Example missing_target_column :
  get_value Z.eqb project_globals prices "id" 7%Z "cost" = ([], Raise (KeyError "cost")).
Proof. vm_compute. reflexivity. Qed.

(** In utils.py as it stands a failed lookup ends in [NameError]. *)
Example failed_lookup_in_utils :
  get_value Z.eqb module_globals prices "id" 7%Z "price" =
    ([], Raise (NameError "SearchValNotFound")).
Proof. vm_compute. reflexivity. Qed.

Example failed_lookup_with_error_class :
  get_value Z.eqb project_globals prices "id" 7%Z "price" =
    ([LogError (SearchValNotFound "id" 7%Z)], Raise (SearchValNotFound "id" 7%Z)).
Proof. vm_compute. reflexivity. Qed.

End LookupScenario.

Section IndexCenteredScenario.
Import SingleIndexCenteredReport Examples.

(** Were [datasets] bound in the module, the loop would run and fill the
    table; the conversion leaves the text column, which does not convert. *)
Example index_centered_report_with_datasets :
  get_index_centered_report_df_from convert (with_datasets ["A"; "BB"])
      ["A"; "BB"] ["length"; "name"] [DInt; DInt] two_lengths =
    ([Func "A"; Func "BB"],
     Ok {| columns := ["length"; "name"];
           rows := [("A", [Some (PNum 1); Some (PStr "A")]);
                    ("BB", [Some (PNum 2); Some (PStr "BB")])] |}).
Proof. vm_compute. reflexivity. Qed.

End IndexCenteredScenario.

(** ** The contents and the calls of a report *)

Lemma find_all_false {A} (f : A -> bool) l :
  (forall x, x ∈ l -> f x = false) -> find f l = None.
Proof.
  induction l as [|x l IH]; intros Hf; simpl; [done|].
  rewrite (Hf x); [|by left]. apply IH. intros y Hy. apply Hf. by right.
Qed.

Lemma for_each_steps {E X A B} (f : A -> run E X B) (ev : A -> E) (g : A -> B) xs :
  (forall x, x ∈ xs -> f x = ([ev x], Ok (g x))) ->
  for_each f xs = (map ev xs, Ok (map g xs)).
Proof.
  induction xs as [|x xs IH]; intros Hf; simpl; [done|].
  rewrite (Hf x); [|by left]. rewrite IH; [|intros y Hy; apply Hf; by right].
  simpl. by rewrite app_nil_r.
Qed.

Lemma zip_maps {A B C} (f : A -> B) (g : A -> C) l :
  zip (map f l) (map g l) = map (fun x => (f x, g x)) l.
Proof. induction l as [|x l IH]; simpl; [done|]. by rewrite IH. Qed.

Lemma assoc_graph {K A} `{EqDecision K} (g : K -> A) l k :
  assoc k (map (fun x => (x, g x)) l) = if bool_decide (k ∈ l) then Some (g k) else None.
Proof.
  induction l as [|x l IH]; simpl; [done|].
  destruct (decide (k = x)) as [->|Hk].
  - by rewrite bool_decide_eq_true_2; [|by left].
  - rewrite IH. destruct (decide (k ∈ l)) as [Hin|Hin].
    + rewrite bool_decide_eq_true_2 by done. by rewrite bool_decide_eq_true_2 by (by right).
    + rewrite bool_decide_eq_false_2 by done. rewrite bool_decide_eq_false_2; [done|].
      by intros [?|?]%elem_of_cons.
Qed.

Lemma list_prod_single {A B} (l : list A) (b : B) :
  list_prod l [b] = map (fun a => (a, b)) l.
Proof. induction l as [|a l IH]; simpl; [done|]. by rewrite IH. Qed.

Lemma assoc_field (fields : list string) {A} (vs : list A) (f m' m : string) :
  assoc (f, m') (zip (map (fun a => (a, m)) fields) vs) =
    if decide (m' = m) then assoc f (zip fields vs) else None.
Proof.
  revert vs. induction fields as [|a fields IH]; intros vs; simpl.
  - by case_decide.
  - destruct vs as [|v vs]; simpl; [by case_decide|].
    rewrite IH. repeat case_decide; simplify_eq; done.
Qed.

Section FrameWrites.
Import Pandas.
Context {V : Type}.
Implicit Types (df : DataFrame V).

Lemma assign_cells_map (g : column_label -> option V) cols targets vs :
  assign_cells cols targets vs (map g cols) =
    map (fun c => default (g c) (assoc c (zip targets vs))) cols.
Proof.
  unfold assign_cells. induction cols as [|c cols IH]; simpl; [done|]. by rewrite IH.
Qed.

(** With each label written once, the rows after [df.loc[labels, targets] =
    values]: a row whose label is written takes its block, the others stay. *)
Lemma writes_each_row targets l : forall df,
  NoDup (map fst l) ->
  writes df targets l =
    {| columns := columns df;
       rows := map (fun r => match assoc (fst r) l with
                             | Some vs => (fst r, assign_cells (columns df) targets vs (snd r))
                             | None => r
                             end) (rows df) |}.
Proof.
  induction l as [|[d vs] l IH]; intros df Hnd; simpl.
  - destruct df as [cols rs]. simpl. f_equal. by rewrite map_id.
  - change (NoDup (d :: map fst l)) in Hnd.
    apply NoDup_cons in Hnd as [Hd Hnd]. rewrite IH; [|done].
    simpl. f_equal. rewrite map_map. apply map_ext. intros [d' cells]. simpl.
    destruct (decide (d' = d)) as [->|Hne]; simpl.
    + assert (assoc d l = None) as ->; [|done].
      clear -Hd. induction l as [|[d0 v0] l IH]; simpl; [done|].
      simpl in Hd. apply not_elem_of_cons in Hd as [Hne Hd].
      rewrite decide_False; [|done]. by apply IH.
    + done.
Qed.

Lemma loc_set_run df labels targets values :
  (forall d, d ∈ labels -> d ∈ index df) ->
  (forall c, c ∈ targets -> c ∈ columns df) ->
  length values = length labels ->
  (forall vs, vs ∈ values -> length vs = length targets) ->
  loc_set df labels targets values = Ok (writes df targets (zip labels values)).
Proof.
  intros Hlabels Htargets Hlen Hwidth. unfold loc_set.
  rewrite find_all_false; [|intros d Hd; by rewrite bool_decide_eq_true_2; [|auto]].
  rewrite find_all_false; [|intros c Hc; by rewrite bool_decide_eq_true_2; [|auto]].
  rewrite bool_decide_eq_true_2; [|done]. simpl.
  assert (forallb (fun vs => bool_decide (length vs = length targets)) values = true) as ->;
    [|done].
  apply forallb_forall. intros vs Hvs%list_elem_of_In.
  by apply bool_decide_eq_true_2, Hwidth.
Qed.

End FrameWrites.

Section ReportRun.
Import Pandas SingleSheetReport ReportContents.
Context {V : Type}.
Variable DATA_SET_NAME : string.
Implicit Types (func : @score_function V) (method : Method) (db : DatabaseClient).
Implicit Types (clients : gmap string DatasetFileClient).

(** The run of the collector when every dataset has its file client and its
    score has one value per score name. *)
Lemma collector_run method clients func names
    (fc : string -> DatasetFileClient) (sc : string -> score) :
  (forall d, d ∈ datasets method ->
     clients !! d = Some (fc d) /\ func (query_for method (fc d)) = Ok (sc d) /\
     length (score_values (sc d)) = length names) ->
  _get_score_for_method_ DATA_SET_NAME method clients func names =
    (map (fun d => ScoreFunc (query_for method (fc d))) (datasets method),
     Ok {| score_columns := DATA_SET_NAME :: names;
           score_rows := map (fun d => (d, score_values (sc d))) (datasets method) |}).
Proof.
  intros Hcover. unfold _get_score_for_method_.
  rewrite (for_each_steps _ (fun d => ScoreFunc (query_for method (fc d)))
             (fun d => (d, score_values (sc d)))).
  2: { intros d (Hfc & Hs & _)%Hcover. by apply score_row_total. }
  set (data := map (fun d => (d, score_values (sc d))) (datasets method)).
  assert (Hwide : Forall (fun r => S (length (snd r)) = length (DATA_SET_NAME :: names)) data).
  { apply Forall_forall. intros r (d & -> & Hd)%list_elem_of_fmap.
    destruct (Hcover d Hd) as (_ & _ & Hlen). simpl. by rewrite Hlen. }
  destruct (score_frame_wide _ _ Hwide) as [table Htable].
  destruct (score_frame_Ok _ _ _ Htable) as (Hcols & _ & Hrows).
  simpl. rewrite Htable, app_nil_r. do 2 f_equal.
  destruct table as [cols rs]. simpl in *. by rewrite Hcols, (Hrows Hwide).
Qed.

Section Store.
Variable func : @score_function V.
Variable db : DatabaseClient.
Hypothesis names_agree :
  forall d, d ∈ get_all_datasets db -> dataset_name (get_dataset db d) = d.

Lemma file_clients_lookup ds d : forall (m0 : gmap string DatasetFileClient),
  (forall d', d' ∈ ds -> d' ∈ get_all_datasets db) ->
  d ∈ ds \/ m0 !! d = Some (client_of db d) ->
  foldl (fun m inst => <[dataset_name inst := {| client_path := absolute_path inst |}]> m)
        m0 (map (get_dataset db) ds) !! d = Some (client_of db d).
Proof.
  induction ds as [|d0 ds IH]; intros m0 Hsub Hd; simpl.
  - destruct Hd as [Hd|Hd]; [by apply elem_of_nil in Hd|done].
  - apply IH; [intros d' Hd'; apply Hsub; by right|].
    rewrite (names_agree d0); [|apply Hsub; by left].
    destruct (decide (d = d0)) as [->|Hne].
    + right. apply lookup_insert_eq.
    + destruct Hd as [Hd|Hd].
      * left. apply elem_of_cons in Hd as [?|?]; done.
      * right. by rewrite lookup_insert_ne.
Qed.

Variables methods fields : list string.

Lemma scored_values m d :
  scored func db fields m -> d ∈ datasets (get_method db m) ->
  func (query_of db m d) = Ok (score_of func db m d) /\
  values_of func db m d = score_values (score_of func db m d) /\
  length (score_values (score_of func db m d)) = length fields.
Proof.
  intros [_ Hs] Hd. destruct (Hs d Hd) as (_ & s & Hf & Hlen).
  unfold score_of, values_of. by rewrite Hf.
Qed.

Lemma assoc_zip_Some {A} (ks : list string) (vs : list A) k :
  k ∈ ks -> length vs = length ks -> is_Some (assoc k (zip ks vs)).
Proof.
  revert vs. induction ks as [|k0 ks IH]; intros vs Hk Hlen; [by apply elem_of_nil in Hk|].
  destruct vs as [|v vs]; [discriminate|]. simpl.
  destruct (decide (k = k0)) as [->|Hne]; [by eexists|].
  apply IH; [|by injection Hlen]. apply elem_of_cons in Hk as [?|?]; done.
Qed.

Lemma merged_row_step ms m d :
  scored func db fields m ->
  (if bool_decide (d ∈ datasets (get_method db m))
   then assign_cells (list_prod fields methods) (list_prod fields [m])
          (score_values (score_of func db m d)) (merged_row func db methods fields ms d)
   else merged_row func db methods fields ms d) =
  merged_row func db methods fields (ms ++ [m]) d.
Proof.
  intros Hm. unfold merged_row.
  case_bool_decide as Hd.
  - rewrite assign_cells_map. apply map_ext_in.
    intros [f m'] [Hf _]%in_prod_iff. rewrite list_prod_single, assoc_field. simpl.
    destruct (scored_values m d Hm Hd) as (_ & Hv & Hlen).
    destruct (decide (m' = m)) as [->|Hne].
    + rewrite (bool_decide_eq_true_2 (m ∈ ms ++ [m])); [|apply elem_of_app; right; by left].
      unfold score_cell. simpl. rewrite (bool_decide_eq_true_2 _ Hd), Hv.
      destruct (assoc_zip_Some fields (score_values (score_of func db m d)) f) as [v ->];
        [by apply list_elem_of_In|done|done].
    + simpl. assert (m' ∈ ms ++ [m] <-> m' ∈ ms) as Hiff
        by (rewrite elem_of_app, list_elem_of_singleton; intuition congruence).
      by rewrite (bool_decide_ext _ _ Hiff).
  - apply map_ext. intros [f m']. simpl.
    destruct (decide (m' = m)) as [->|Hne].
    + rewrite (bool_decide_eq_true_2 (m ∈ ms ++ [m])); [|apply elem_of_app; right; by left].
      unfold score_cell. simpl. rewrite (bool_decide_eq_false_2 _ Hd). by case_bool_decide.
    + assert (m' ∈ ms ++ [m] <-> m' ∈ ms) as Hiff
        by (rewrite elem_of_app, list_elem_of_singleton; intuition congruence).
      by rewrite (bool_decide_ext _ _ Hiff).
Qed.

Hypothesis datasets_once : NoDup (get_all_datasets db).

Lemma merge_step clients ms m :
  (forall d, d ∈ get_all_datasets db -> clients !! d = Some (client_of db d)) ->
  m ∈ methods -> scored func db fields m ->
  (let* method_instance := call (GetMethod m) (get_method db m) in
   let* field_values :=
     _get_score_for_method_ DATA_SET_NAME method_instance clients func fields in
   lift (loc_set (merged_table func db methods fields ms)
                 (map fst (score_rows field_values))
                 (list_prod fields [m])
                 (map snd (score_rows field_values)))) =
  (GetMethod m :: map (fun d => ScoreFunc (query_of db m d)) (datasets (get_method db m)),
   Ok (merged_table func db methods fields (ms ++ [m]))).
Proof.
  intros Hclients Hin Hm.
  unfold bind at 1, call at 1.
  rewrite (collector_run _ _ _ _ (client_of db) (score_of func db m)).
  2: { intros d Hd. destruct (scored_values m d Hm Hd) as (Hf & _ & Hlen).
       destruct Hm as [_ Hds]. destruct (Hds d Hd) as [Hall _]. auto. }
  unfold bind, lift. cbn [score_rows].
  rewrite !map_map. cbn [fst snd]. rewrite map_id.
  rewrite loc_set_run.
  - simpl. rewrite app_nil_r. do 2 f_equal.
    rewrite <- (map_id (datasets (get_method db m))) at 1.
    rewrite zip_maps, writes_each_row.
    2: { rewrite map_map. simpl. rewrite map_id. by destruct Hm. }
    unfold merged_table. cbn [columns rows]. f_equal.
    rewrite map_map. apply map_ext. intros d. cbn [fst snd].
    rewrite (assoc_graph (fun d => score_values (score_of func db m d))).
    rewrite <- merged_row_step by done.
    by case_bool_decide.
  - intros d Hd. unfold index, merged_table. cbn [rows]. rewrite map_map. simpl.
    rewrite map_id. destruct Hm as [_ Hds]. by destruct (Hds d Hd).
  - intros [f m'] Hc. unfold merged_table. cbn [columns].
    rewrite list_prod_single in Hc. apply list_elem_of_fmap in Hc as (f' & [= -> ->] & Hf).
    apply list_elem_of_In, in_prod_iff. split; by apply list_elem_of_In.
  - by rewrite !length_map.
  - intros vs (d & -> & Hd)%list_elem_of_fmap.
    destruct (scored_values m d Hm Hd) as (_ & _ & Hlen).
    by rewrite Hlen, list_prod_single, length_map.
Qed.

Lemma merge_loop clients rest : forall ms,
  (forall d, d ∈ get_all_datasets db -> clients !! d = Some (client_of db d)) ->
  (forall m, m ∈ rest -> m ∈ methods /\ scored func db fields m) ->
  for_loop (fun report (name : string) =>
      let* method_instance := call (GetMethod name) (get_method db name) in
      let* field_values :=
        _get_score_for_method_ DATA_SET_NAME method_instance clients func fields in
      lift (loc_set report (map fst (score_rows field_values))
                    (list_prod fields [name])
                    (map snd (score_rows field_values))))
    (merged_table func db methods fields ms) rest =
  (flat_map (fun m => GetMethod m :: map (fun d => ScoreFunc (query_of db m d))
                                         (datasets (get_method db m))) rest,
   Ok (merged_table func db methods fields (ms ++ rest))).
Proof.
  induction rest as [|m rest IH]; intros ms Hclients Hrest.
  - simpl. by rewrite app_nil_r.
  - cbn [for_loop]. destruct (Hrest m) as [Hin Hm]; [by left|].
    rewrite (merge_step clients ms m Hclients Hin Hm).
    unfold bind at 1. rewrite IH; [|done|intros m' Hm'; apply Hrest; by right].
    cbn [flat_map]. by rewrite <- app_assoc.
Qed.

Lemma merged_all :
  dropna_all (merged_table func db methods fields methods) =
  dropna_all (full_table func db methods fields).
Proof.
  f_equal. unfold merged_table, full_table. f_equal. apply map_ext. intros d. f_equal.
  unfold merged_row. apply map_ext_in. intros [f m] [_ Hm]%in_prod_iff.
  by rewrite bool_decide_eq_true_2; [|apply list_elem_of_In].
Qed.

Lemma merged_none :
  new_frame (get_all_datasets db) (list_prod fields methods) =
  merged_table func db methods fields [].
Proof.
  reflexivity.
Qed.

Lemma pruned_run :
  (forall m, m ∈ methods -> m ∈ get_all_methods db /\ scored func db fields m) ->
  pruned_report_df DATA_SET_NAME methods fields func db =
    (calls_of db methods, Ok (dropna_all (full_table func db methods fields))).
Proof.
  intros Hm. unfold pruned_report_df, bind at 1, call at 1.
  rewrite no_unknown; [|intros x Hx; by destruct (Hm x Hx)].
  rewrite bool_decide_eq_false_2; [|simpl; lia].
  unfold bind at 1, call at 1.
  rewrite (for_each_calls (X := exn) GetDataset (get_dataset db)).
  unfold bind at 1. rewrite merged_none, merge_loop.
  - simpl. rewrite app_nil_r, merged_all. done.
  - intros d Hd. apply file_clients_lookup; [done|by left].
  - intros m Hin. split; [done|]. by destruct (Hm m Hin).
Qed.

End Store.
End ReportRun.

(** ** The report of a complete run *)

Section CompleteRun.
Import Pandas SingleSheetReport ReportContents.
Context {V dtype : Type}.
Variable DATA_SET_NAME : string.
Variable key_selects : string -> column_label -> bool.
Variable cast : dtype -> option V -> option (option V).

(** X1. When every requested method is known and each of its datasets is a
    dataset of the store that the scoring function scores with one value per
    field, what [get_report_df_from] hands to the coercion is the table
    [full_table] without its all-null rows: one row per dataset of the store,
    in the store's order; under (field, method) the value the scoring
    function gave for that field where the method lists the dataset, and a
    null elsewhere. *)
Theorem report_table methods fields (dtypes : list dtype)
    (func : @score_function V) (db : DatabaseClient) :
  NoDup methods -> NoDup fields -> store_consistent db ->
  (forall m, m ∈ methods -> m ∈ get_all_methods db /\ scored func db fields m) ->
  snd (get_report_df_from DATA_SET_NAME key_selects cast methods fields dtypes func db) =
    astype key_selects cast (dict_of (zip fields dtypes))
           (dropna_all (full_table func db methods fields)).
Proof.
  intros _ _ [Hnd Hnames] Hm. unfold get_report_df_from.
  by rewrite (pruned_run DATA_SET_NAME func db Hnames methods fields Hm).
Qed.

(** X2. In a complete run the store is asked for the known methods, the
    dataset names and every dataset before any method is looked at; then the
    methods are handled in the caller's order, each fetched once and followed
    by one call of the scoring function per dataset of the method, in the
    method's order. *)
Theorem report_calls methods fields (dtypes : list dtype)
    (func : @score_function V) (db : DatabaseClient) :
  NoDup methods -> NoDup fields -> store_consistent db ->
  (forall m, m ∈ methods -> m ∈ get_all_methods db /\ scored func db fields m) ->
  fst (get_report_df_from DATA_SET_NAME key_selects cast methods fields dtypes func db) =
    calls_of db methods.
Proof.
  intros _ _ [Hnd Hnames] Hm. unfold get_report_df_from.
  rewrite (pruned_run DATA_SET_NAME func db Hnames methods fields Hm).
  simpl. by rewrite app_nil_r.
Qed.

End CompleteRun.

(** ** Row labels *)

Section RowLabels.
Import Pandas SingleSheetReport.
Context {V dtype : Type}.
Variable DATA_SET_NAME : string.
Variable key_selects : string -> column_label -> bool.
Variable cast : dtype -> option V -> option (option V).

Lemma writes_index targets l : forall (df : DataFrame V),
  index (writes df targets l) = index df.
Proof.
  induction l as [|dv l IH]; intros df; simpl; [done|].
  rewrite IH. unfold index, write_row. simpl. rewrite map_map.
  apply map_ext. intros r. by case_decide.
Qed.

Lemma loc_set_index (df : DataFrame V) labels targets values df' :
  loc_set df labels targets values = Ok df' -> index df' = index df.
Proof.
  unfold loc_set. repeat case_match; try discriminate.
  intros [= <-]. apply writes_index.
Qed.

Lemma dropna_all_index (df : DataFrame V) : sublist (index (dropna_all df)) (index df).
Proof.
  unfold index, dropna_all. simpl.
  induction (rows df) as [|r rs IH]; simpl; [constructor|].
  destruct (existsb notna (snd r)); simpl; by constructor.
Qed.

Lemma astype_index mapping (df df' : DataFrame V) :
  astype key_selects cast mapping df = Ok df' -> index df' = index df.
Proof.
  intros Hcast. unfold index. rewrite (astype_rows _ _ _ _ _ Hcast), map_map.
  by apply map_ext.
Qed.

Lemma pruned_index methods fields func db l (r : DataFrame V) :
  pruned_report_df DATA_SET_NAME methods fields func db = (l, Ok r) ->
  sublist (index r) (get_all_datasets db).
Proof.
  unfold pruned_report_df.
  intros (l1 & known & l2 & [= _ <-] & H & _)%bind_Ok.
  case_bool_decide; [discriminate|].
  apply bind_Ok in H as (l3 & all_datasets & l4 & [= _ <-] & H & _).
  apply bind_Ok in H as (l5 & instances & l6 & _ & H & _).
  apply bind_Ok in H as (l7 & r0 & l8 & Hloop & [= _ <-] & _).
  assert (Hidx : index r0 = get_all_datasets db).
  { eapply (for_loop_Ok _ (fun s => index s = get_all_datasets db)); [| |exact Hloop].
    - intros s m l0 s' _ Hs.
      intros (l9 & mi & l10 & _ & H & _)%bind_Ok.
      apply bind_Ok in H as (l11 & fv & l12 & _ & Hset & _).
      unfold lift in Hset. injection Hset as _ Hset.
      by rewrite (loc_set_index _ _ _ _ _ Hset).
    - unfold index, new_frame. simpl. rewrite map_map. apply map_id. }
  rewrite <- Hidx. apply dropna_all_index.
Qed.

(** X3. The rows of a returned table are datasets of the store, in the
    store's order: the report never adds a row, repeats none that the store
    lists once, and never reorders them, whatever order the methods list
    their datasets in. *)
Theorem report_rows_in_store_order methods fields (dtypes : list dtype) func db l
    (r : DataFrame V) :
  get_report_df_from DATA_SET_NAME key_selects cast methods fields dtypes func db = (l, Ok r) ->
  sublist (index r) (get_all_datasets db).
Proof.
  unfold get_report_df_from.
  intros (l1 & r0 & l2 & Hpruned & [= _ Hcast] & _)%bind_Ok.
  rewrite (astype_index _ _ _ Hcast). by eapply pruned_index.
Qed.

End RowLabels.

(** ** Where the collector stops *)

Lemma for_each_stops {E X A B} (f : A -> run E X B) pre x post l (e : X) ls :
  Forall2 (fun y l' => exists b, f y = (l', Ok b)) pre ls ->
  f x = (l, Raise e) ->
  for_each f (pre ++ x :: post) = (concat ls ++ l, Raise e).
Proof.
  intros Hpre Hx. induction Hpre as [|y l' pre ls [b Hy] _ IH]; simpl.
  - by rewrite Hx.
  - rewrite Hy. simpl. rewrite IH. simpl. by rewrite app_assoc.
Qed.

Section Collector.
Import Pandas SingleSheetReport ReportContents.
Context {V : Type}.
Variable DATA_SET_NAME : string.
Implicit Types (func : @score_function V) (method : Method).
Implicit Types (clients : gmap string DatasetFileClient).

(** The datasets [ds] all have a file client and a score. *)
Lemma scored_prefix method clients func ds :
  (forall d, d ∈ ds -> exists fc s, clients !! d = Some fc /\
                                   func (query_for method fc) = Ok s) ->
  exists ls, concat ls = scoring_calls method clients ds /\
    Forall2 (fun d l' => exists b, score_row method clients func d = (l', Ok b)) ds ls.
Proof.
  induction ds as [|d ds IH]; intros Hds.
  - exists []. split; [done|constructor].
  - destruct IH as (ls & Hls & Hall); [intros d' Hd'; apply Hds; by right|].
    destruct (Hds d) as (fc & s & Hfc & Hs); [by left|].
    exists ([ScoreFunc (query_for method fc)] :: ls). split.
    + simpl. by rewrite Hfc, Hls.
    + constructor; [|done]. eexists. by apply score_row_total.
Qed.

(** X4. The collector stops at the first dataset that has no file client: it
    raises [KeyError] for that dataset, without calling the scoring function
    for it or for any later dataset; the calls made are those of the datasets
    before it. *)
Theorem collector_missing_client method clients func names pre d post :
  datasets method = pre ++ d :: post ->
  (forall d', d' ∈ pre -> exists fc s, clients !! d' = Some fc /\
                                      func (query_for method fc) = Ok s) ->
  clients !! d = None ->
  _get_score_for_method_ DATA_SET_NAME method clients func names =
    (scoring_calls method clients pre, Raise (KeyError d)).
Proof.
  intros Hds Hpre Hd. unfold _get_score_for_method_. rewrite Hds.
  destruct (scored_prefix method clients func pre Hpre) as (ls & Hls & Hall).
  rewrite (for_each_stops _ pre d post [] (KeyError d) ls Hall).
  - simpl. by rewrite app_nil_r, Hls.
  - unfold score_row, lift, getitem. by rewrite Hd.
Qed.

(** X5. An exception of the scoring function leaves the collector as it is:
    the call that raised is the last one made, no later dataset is scored and
    no table is built. *)
Theorem collector_score_raises method clients func names pre d post fc p :
  datasets method = pre ++ d :: post ->
  (forall d', d' ∈ pre -> exists fc' s, clients !! d' = Some fc' /\
                                       func (query_for method fc') = Ok s) ->
  clients !! d = Some fc ->
  func (query_for method fc) = Raise p ->
  _get_score_for_method_ DATA_SET_NAME method clients func names =
    (scoring_calls method clients pre ++ [ScoreFunc (query_for method fc)],
     Raise (Raised p)).
Proof.
  intros Hds Hpre Hd Hp. unfold _get_score_for_method_. rewrite Hds.
  destruct (scored_prefix method clients func pre Hpre) as (ls & Hls & Hall).
  rewrite (for_each_stops _ pre d post [ScoreFunc (query_for method fc)] (Raised p) ls Hall).
  - simpl. by rewrite Hls.
  - unfold score_row, lift, getitem, apply_score. rewrite Hd. simpl. by rewrite Hp.
Qed.

End Collector.

Lemma max_list_succ (l : list nat) : l <> [] -> max_list (map S l) = S (max_list l).
Proof.
  induction l as [|n l IH]; [done|]. intros _. destruct l as [|n' l]; [simpl; lia|].
  change (max_list (map S (n :: n' :: l))) with (S n `max` max_list (map S (n' :: l))).
  rewrite IH by done. simpl. lia.
Qed.

Section CollectorWidth.
Import Pandas SingleSheetReport ReportContents.
Context {V : Type}.
Variable DATA_SET_NAME : string.
Implicit Types (func : @score_function V) (method : Method).
Implicit Types (clients : gmap string DatasetFileClient).

(** X6. When every dataset of a method is scored, the collector has called
    the scoring function once per dataset, in order, before it builds the
    table, and what it builds depends on the longest score only: with exactly
    one value per score name in the longest score, every shorter score is
    filled up with nulls and accepted; otherwise the collector raises
    [ValueError], after all the calls. *)
Theorem collector_width method clients func names
    (fc : string -> DatasetFileClient) (sc : string -> score) :
  datasets method <> [] ->
  (forall d, d ∈ datasets method ->
     clients !! d = Some (fc d) /\ func (query_for method (fc d)) = Ok (sc d)) ->
  _get_score_for_method_ DATA_SET_NAME method clients func names =
    (map (fun d => ScoreFunc (query_for method (fc d))) (datasets method),
     if decide (max_list (map (fun d => length (score_values (sc d))) (datasets method))
                = length names)
     then Ok {| score_columns := DATA_SET_NAME :: names;
                score_rows :=
                  map (fun d => (d, score_values (sc d) ++
                                    replicate (length names - length (score_values (sc d))) None))
                      (datasets method) |}
     else Raise (ValueError "columns passed do not match the data")).
Proof.
  intros Hne Hcover. unfold _get_score_for_method_.
  rewrite (for_each_steps _ (fun d => ScoreFunc (query_for method (fc d)))
             (fun d => (d, score_values (sc d)))).
  2: { intros d [Hfc Hs]%Hcover. by apply score_row_total. }
  unfold bind, lift. rewrite app_nil_r. f_equal.
  unfold score_frame.
  destruct (datasets method) as [|d0 ds] eqn:Hds; [done|].
  set (all := d0 :: ds).
  change (map (fun d => (d, score_values (sc d))) all)
    with ((d0, score_values (sc d0)) :: map (fun d => (d, score_values (sc d))) ds) at 1.
  cbv iota beta.
  change ((d0, score_values (sc d0)) :: map (fun d => (d, score_values (sc d))) ds)
    with (map (fun d => (d, score_values (sc d))) all).
  rewrite !map_map. cbn [fst snd length].
  change (fun x : string => S (length (score_values (sc x))))
    with (fun x : string => S ((fun d => length (score_values (sc d))) x)).
  rewrite <- (map_map (fun d => length (score_values (sc d))) S).
  rewrite max_list_succ by (subst all; done).
  set (w := max_list _).
  destruct (decide (w = length names)) as [Hw|Hw].
  - rewrite decide_True by lia. do 2 f_equal. apply map_ext. intros d.
    by rewrite Hw.
  - by rewrite decide_False by lia.
Qed.

End CollectorWidth.

(** ** Counting *)

Section CountingTheory.
Import UtilsLists.
Context {A : Type} `{EqDecision A}.
Implicit Types (x y : A) (c : list (A * nat)) (lst : list A).

Lemma counter_add_keys x c :
  map fst (counter_add x c) =
    if bool_decide (x ∈ map fst c) then map fst c else map fst c ++ [x].
Proof.
  induction c as [|[y n] c IH]; [done|]. simpl.
  - destruct (decide (x = y)) as [->|Hne]; simpl.
    + by rewrite bool_decide_eq_true_2; [|left].
    + rewrite IH. destruct (decide (x ∈ map fst c)) as [Hin|Hin].
      * rewrite !bool_decide_eq_true_2; [done|by right|done].
      * rewrite !bool_decide_eq_false_2; [done| |done].
        intros [?|?]%elem_of_cons; done.
Qed.

Lemma counter_add_assoc x y c :
  assoc y (counter_add x c) =
    if decide (y = x) then Some (S (default 0 (assoc x c))) else assoc y c.
Proof.
  induction c as [|[z n] c IH]; simpl.
  - by destruct (decide (y = x)).
  - destruct (decide (x = z)) as [->|Hxz]; simpl.
    + destruct (decide (y = z)) as [->|Hyz]; [|done]. done.
    + destruct (decide (y = z)) as [->|Hyz].
      * by destruct (decide (z = x)) as [->|].
      * rewrite IH. by destruct (decide (y = x)).
Qed.

Lemma Counter_snoc lst x : Counter (lst ++ [x]) = counter_add x (Counter lst).
Proof. unfold Counter. by rewrite foldl_snoc. Qed.

Lemma occurrences_snoc x lst z :
  occurrences x (lst ++ [z]) = occurrences x lst + (if decide (z = x) then 1 else 0).
Proof.
  unfold occurrences. rewrite List.filter_app, length_app. simpl.
  destruct (decide (z = x)).
  - by rewrite bool_decide_eq_true_2.
  - by rewrite bool_decide_eq_false_2.
Qed.

Lemma occurrences_absent x lst : x ∉ lst -> occurrences x lst = 0.
Proof.
  unfold occurrences. induction lst as [|y lst IH]; [done|]. intros Hx. simpl.
  rewrite bool_decide_eq_false_2.
  - apply IH. intros ?. apply Hx. by right.
  - intros ->. apply Hx. by left.
Qed.

Lemma occurrences_present x lst : x ∈ lst -> 0 < occurrences x lst.
Proof.
  unfold occurrences. induction 1 as [x lst|x y lst _ IH]; simpl.
  - rewrite bool_decide_eq_true_2 by done. simpl. lia.
  - destruct (bool_decide (y = x)); simpl; lia.
Qed.

Lemma Counter_keys lst x : x ∈ map fst (Counter lst) <-> x ∈ lst.
Proof.
  induction lst as [|z lst IH] using rev_ind.
  - simpl. split; intros []%elem_of_nil.
  - rewrite Counter_snoc, counter_add_keys, elem_of_app, list_elem_of_singleton.
    case_bool_decide as Hz.
    + rewrite IH. split; [auto|]. intros [?| ->]; [done|]. by apply IH.
    + by rewrite elem_of_app, list_elem_of_singleton, IH.
Qed.

Lemma Counter_NoDup lst : NoDup (map fst (Counter lst)).
Proof.
  induction lst as [|z lst IH] using rev_ind; [constructor|].
  rewrite Counter_snoc, counter_add_keys. case_bool_decide as Hz; [done|].
  apply NoDup_app. split; [done|]. split; [|apply NoDup_singleton].
  intros x Hx ->%list_elem_of_singleton. done.
Qed.

Lemma Counter_assoc lst x :
  assoc x (Counter lst) = if bool_decide (x ∈ lst) then Some (occurrences x lst) else None.
Proof.
  induction lst as [|z lst IH] using rev_ind.
  - by rewrite bool_decide_eq_false_2; [|apply not_elem_of_nil].
  - rewrite Counter_snoc, counter_add_assoc, occurrences_snoc.
    destruct (decide (x = z)) as [->|Hne].
    + rewrite decide_True by done.
      rewrite (bool_decide_eq_true_2 (z ∈ lst ++ [z])); [|apply elem_of_app; right; by left].
      rewrite IH. case_bool_decide as Hz; simpl; [f_equal; lia|].
      by rewrite occurrences_absent.
    + rewrite decide_False by done. rewrite IH, Nat.add_0_r.
      assert (x ∈ lst ++ [z] <-> x ∈ lst) as Hiff
        by (rewrite elem_of_app, list_elem_of_singleton; intuition congruence).
      by rewrite (bool_decide_ext _ _ Hiff).
Qed.

Lemma assoc_NoDup {B} (l : list (A * B)) x b :
  NoDup (map fst l) -> (x, b) ∈ l <-> assoc x l = Some b.
Proof.
  induction l as [|[y b'] l IH]; simpl; intros Hnd.
  - split; [intros []%elem_of_nil|done].
  - apply NoDup_cons in Hnd as [Hy Hnd]. rewrite elem_of_cons, (IH Hnd).
    destruct (decide (x = y)) as [->|Hne].
    + split; [intros [[= ->]|Hin]; [done|]|intros [= ->]; by left].
      exfalso. apply Hy. apply (IH Hnd) in Hin.
      apply list_elem_of_fmap. by exists (y, b).
    + split; [intros [[= ]|?]; done|auto].
Qed.

Lemma Counter_spec lst x n :
  (x, n) ∈ Counter lst <-> x ∈ lst /\ n = occurrences x lst.
Proof.
  rewrite (assoc_NoDup _ _ _ (Counter_NoDup lst)), Counter_assoc.
  case_bool_decide; [|by intuition]. split; [intros [= <-]; done|intros [_ ->]; done].
Qed.

Lemma tally_keys lst : forall c,
  exists k, map fst (foldl (fun c x => counter_add x c) c lst) = map fst c ++ k.
Proof.
  induction lst as [|z lst IH]; intros c; simpl; [exists []; by rewrite app_nil_r|].
  destruct (IH (counter_add z c)) as [k Hk]. rewrite Hk, counter_add_keys.
  case_bool_decide; [by eexists|]. exists (z :: k). by rewrite <- app_assoc.
Qed.

(** The items are kept in the order in which they were first seen. *)
Lemma Counter_first pre x post :
  x ∉ pre ->
  exists k, map fst (Counter (pre ++ x :: post)) = map fst (Counter pre) ++ x :: k.
Proof.
  intros Hx. unfold Counter. rewrite foldl_app. simpl.
  destruct (tally_keys post (counter_add x (foldl (fun c x => counter_add x c) [] pre)))
    as [k Hk].
  rewrite Hk, counter_add_keys.
  rewrite bool_decide_eq_false_2; [|by rewrite (Counter_keys pre)].
  exists k. by rewrite <- app_assoc.
Qed.

Lemma insert_by_count_perm p c : insert_by_count p c ≡ₚ p :: c.
Proof.
  induction c as [|q c IH]; simpl; [done|].
  case_bool_decide; [done|]. rewrite IH. apply Permutation_swap.
Qed.

Lemma sorted_by_count_perm c : sorted_by_count c ≡ₚ c.
Proof.
  induction c as [|p c IH]; simpl; [done|]. by rewrite insert_by_count_perm, IH.
Qed.

Lemma insert_by_count_sorted p c :
  Sorted (fun a b : A * nat => snd b <= snd a) c ->
  Sorted (fun a b : A * nat => snd b <= snd a) (insert_by_count p c).
Proof.
  induction 1 as [|q c Hs IH Hhd]; simpl; [by repeat constructor|].
  case_bool_decide as Hq.
  - constructor; [by constructor|by constructor].
  - constructor; [done|].
    destruct c as [|r c]; simpl.
    + constructor. lia.
    + case_bool_decide; constructor; [lia|]. by inversion Hhd.
Qed.

Lemma sorted_by_count_sorted c :
  Sorted (fun a b : A * nat => snd b <= snd a) (sorted_by_count c).
Proof.
  induction c as [|p c IH]; simpl; [constructor|]. by apply insert_by_count_sorted.
Qed.

(** The first pair of the sorted list is the first pair of the input whose
    count is the largest one. *)
Lemma sorted_by_count_head c :
  c <> [] ->
  exists c1 p c2, c = c1 ++ p :: c2 /\ head (sorted_by_count c) = Some p /\
    (forall q, q ∈ c1 -> snd q < snd p) /\ (forall q, q ∈ c2 -> snd q <= snd p).
Proof.
  induction c as [|p0 c IH]; [done|]. intros _.
  destruct c as [|p1 c].
  - exists [], p0, []. repeat split; by intros ? ?%elem_of_nil.
  - destruct IH as (c1 & p & c2 & Hc & Hhd & H1 & H2); [done|].
    change (sorted_by_count (p0 :: p1 :: c))
      with (insert_by_count p0 (sorted_by_count (p1 :: c))).
    destruct (sorted_by_count (p1 :: c)) as [|p' rest] eqn:Hs; [discriminate|].
    injection Hhd as ->. simpl. case_bool_decide as Hle.
    + exists [], p0, (p1 :: c). repeat split; [by intros ? ?%elem_of_nil|].
      intros q Hq. rewrite Hc in Hq.
      apply elem_of_app in Hq as [Hq|Hq]; [apply H1 in Hq; lia|].
      apply elem_of_cons in Hq as [->|Hq]; [done|]. apply H2 in Hq. lia.
    + exists (p0 :: c1), p, c2. rewrite Hc. repeat split; [|done].
      intros q [->|Hq]%elem_of_cons; [lia|by apply H1].
Qed.

Lemma get_item_counts_sorted lst : get_item_counts lst = sorted_by_count (Counter lst).
Proof.
  unfold get_item_counts, most_common. case_decide as Hl.
  - by destruct lst.
  - rewrite <- (Permutation_length (sorted_by_count_perm (Counter lst))) at 1.
    apply firstn_all.
Qed.

Lemma split_at_unique {B} (a a' b b' : list B) z :
  z ∉ a -> z ∉ a' -> a ++ z :: b = a' ++ z :: b' -> a = a'.
Proof.
  revert a'. induction a as [|u a IH]; intros [|u' a'] Ha Ha'; simpl; intros [= ]; subst.
  - done.
  - exfalso. apply Ha'. by left.
  - exfalso. apply Ha. by left.
  - f_equal. apply IH; [| |done].
    + intros ?. apply Ha. by right.
    + intros ?. apply Ha'. by right.
Qed.

(** X7. [get_item_counts] lists every item of the list exactly once, paired
    with the exact number of its occurrences, and nothing else. *)
Theorem get_item_counts_exact lst :
  NoDup (map fst (get_item_counts lst)) /\
  forall x n, (x, n) ∈ get_item_counts lst <-> x ∈ lst /\ n = occurrences x lst.
Proof.
  rewrite get_item_counts_sorted. split.
  - rewrite (sorted_by_count_perm (Counter lst)). apply Counter_NoDup.
  - intros x n. rewrite (sorted_by_count_perm (Counter lst)). apply Counter_spec.
Qed.

(** X8. The counts come by decreasing count, and they account for the whole
    list: the counts add up to its length. *)
Theorem get_item_counts_descending lst :
  Sorted (fun a b : A * nat => snd b <= snd a) (get_item_counts lst) /\
  sum_list (map snd (get_item_counts lst)) = length lst.
Proof.
  rewrite get_item_counts_sorted. split; [apply sorted_by_count_sorted|].
  rewrite (sorted_by_count_perm (Counter lst)).
  induction lst as [|z lst IH] using rev_ind; [done|].
  rewrite Counter_snoc, length_app. simpl. rewrite <- IH.
  generalize (Counter lst). intros c. induction c as [|[y n] c IHc]; simpl; [done|].
  destruct (decide (z = y)); simpl; lia.
Qed.

(** X9. For a list that is not empty [most_frequent_plus_frequency] returns
    an item of the list with the number of its occurrences; no item occurs
    more often, and among the items that occur as often it is the one the
    list shows first. *)
Theorem most_frequent_is_first_maximum lst :
  lst <> [] ->
  exists x pre post,
    lst = pre ++ x :: post /\ (x ∉ pre) /\
    (forall y, y ∈ pre -> occurrences y lst < occurrences x lst) /\
    (forall y, occurrences y lst <= occurrences x lst) /\
    most_frequent_plus_frequency lst = (Some x, occurrences x lst).
Proof.
  intros Hne.
  assert (Hc : Counter lst <> []).
  { destruct lst as [|z lst]; [done|]. intros Hnil.
    assert (Hz : z ∈ map fst (Counter (z :: lst))) by (apply Counter_keys; by left).
    rewrite Hnil in Hz. by apply elem_of_nil in Hz. }
  destruct (sorted_by_count_head _ Hc) as (c1 & [x n] & c2 & Hsplit & Hhd & H1 & H2).
  assert (Hxn : (x, n) ∈ Counter lst) by (rewrite Hsplit; apply elem_of_app; right; by left).
  apply Counter_spec in Hxn as [Hx ->].
  destruct (list_elem_of_split_l lst x Hx) as (pre & post & Hlst & Hpre).
  exists x, pre, post. split; [done|]. split; [done|].
  assert (Hmax : forall y, occurrences y lst <= occurrences x lst).
  { intros y. destruct (decide (y ∈ lst)) as [Hy|Hy]; [|rewrite (occurrences_absent y); [lia|done]].
    assert (Hyn : (y, occurrences y lst) ∈ Counter lst) by by apply Counter_spec.
    rewrite Hsplit in Hyn. apply elem_of_app in Hyn as [Hyn|Hyn].
    - apply H1 in Hyn. simpl in Hyn. lia.
    - apply elem_of_cons in Hyn as [[= _ ->]|Hyn]; [done|]. by apply H2 in Hyn. }
  split; [|split; [done|]].
  - intros y Hy.
    destruct (Counter_first pre x post Hpre) as [k Hk]. rewrite <- Hlst in Hk.
    pose proof (Counter_NoDup lst) as Hnd.
    assert (Hkeys : map fst c1 = map fst (Counter pre)).
    { apply (split_at_unique _ _ (map fst c2) k x).
      - rewrite Hsplit, map_app in Hnd. simpl in Hnd.
        apply NoDup_app in Hnd as (_ & Hdisj & _). intros Hin. apply (Hdisj x Hin). by left.
      - by rewrite (Counter_keys pre).
      - rewrite <- Hk, Hsplit, map_app. done. }
    assert (Hy1 : y ∈ map fst c1) by (rewrite Hkeys; by apply Counter_keys).
    apply list_elem_of_fmap in Hy1 as ([y' m] & -> & Hq). simpl.
    assert (Hm : (y', m) ∈ Counter lst) by (rewrite Hsplit; apply elem_of_app; by left).
    apply Counter_spec in Hm as [_ ->]. by apply H1 in Hq.
  - unfold most_frequent_plus_frequency. rewrite get_item_counts_sorted.
    destruct (sorted_by_count (Counter lst)) as [|p rest]; [discriminate|].
    by injection Hhd as ->.
Qed.

End CountingTheory.

(** ** Dicts and column lists *)

Section DictTheory.
Context {A : Type}.
Implicit Types (d items : list (string * A)).

Lemma dict_set_assoc k v d k' :
  assoc k' (dict_set k v d) = if decide (k' = k) then Some v else assoc k' d.
Proof.
  induction d as [|[k0 v0] d IH]; simpl; [done|].
  destruct (decide (k = k0)) as [->|Hne]; simpl.
  - by destruct (decide (k' = k0)).
  - destruct (decide (k' = k0)) as [->|Hne'].
    + by rewrite decide_False by done.
    + done.
Qed.

Lemma dict_set_keys k v d :
  map fst (dict_set k v d) =
    if bool_decide (k ∈ map fst d) then map fst d else map fst d ++ [k].
Proof.
  induction d as [|[k0 v0] d IH]; [done|]. simpl.
  destruct (decide (k = k0)) as [->|Hne]; simpl.
  - by rewrite bool_decide_eq_true_2; [|left].
  - rewrite IH. destruct (decide (k ∈ map fst d)) as [Hin|Hin].
    + rewrite !bool_decide_eq_true_2; [done|by right|done].
    + rewrite !bool_decide_eq_false_2; [done| |done].
      intros [?|?]%elem_of_cons; done.
Qed.

Lemma dict_of_snoc items kv :
  dict_of (items ++ [kv]) = dict_set (fst kv) (snd kv) (dict_of items).
Proof. unfold dict_of. by rewrite foldl_snoc. Qed.

(** A later item replaces an earlier one of the same key. *)
Lemma dict_of_assoc items k : assoc k (dict_of items) = assoc k (reverse items).
Proof.
  induction items as [|[k0 v0] items IH] using rev_ind; [done|].
  rewrite dict_of_snoc, dict_set_assoc, reverse_snoc. simpl. by rewrite IH.
Qed.

Lemma dict_of_NoDup items : NoDup (map fst (dict_of items)).
Proof.
  induction items as [|kv items IH] using rev_ind; [constructor|].
  rewrite dict_of_snoc, dict_set_keys. case_bool_decide as Hk; [done|].
  apply NoDup_app. split; [done|]. split; [|apply NoDup_singleton].
  intros x Hx ->%list_elem_of_singleton. done.
Qed.

End DictTheory.

Section ColumnsTheory.
Import Utils UtilsLists.
Context {V : Type}.
Variable eqb : V -> V -> bool.

Lemma frame_of_dict_Ok (data df : list (string * list V)) :
  frame_of_dict data = Ok df ->
  df = data /\ exists n, forall k vs, (k, vs) ∈ df -> length vs = n.
Proof.
  unfold frame_of_dict. destruct data as [|[k0 vs0] data]; [intros [= <-]|].
  - split; [done|]. exists 0. by intros k vs ?%elem_of_nil.
  - destruct (forallb _ _) eqn:Hall; [|discriminate]. intros [= <-]. split; [done|].
    exists (length vs0). intros k vs Hin%list_elem_of_In.
    rewrite forallb_forall in Hall. specialize (Hall _ Hin).
    by apply bool_decide_eq_true in Hall.
Qed.

(** X10. When [convert_lists_to_dataframe] returns, the frame has each column
    name once; under a name stands the data paired with its last occurrence
    among the names, where names and data lists are paired in order and a
    surplus of either is dropped; and all the columns kept are equally
    long. *)
Theorem converted_columns (list_of_column_data : list (list V)) (columns : list string) df :
  convert_lists_to_dataframe list_of_column_data columns = Ok df ->
  NoDup (map fst df) /\
  (forall k, assoc k df = assoc k (reverse (zip columns list_of_column_data))) /\
  exists n, forall k vs, (k, vs) ∈ df -> length vs = n.
Proof.
  unfold convert_lists_to_dataframe. intros [-> Hlen]%frame_of_dict_Ok.
  split; [apply dict_of_NoDup|]. split; [|done].
  intros k. apply dict_of_assoc.
Qed.

Lemma select_head (ks vs : list V) x :
  head (select (map (fun y => eqb y x) ks) vs) =
    snd <$> find (fun kv => eqb (fst kv) x) (zip ks vs).
Proof.
  revert vs. induction ks as [|k ks IH]; intros [|v vs]; try done.
  unfold select in *. simpl. destruct (eqb k x); simpl; [done|]. apply IH.
Qed.

(** X11. A key column and a value column of equal length, made into a frame
    by [convert_lists_to_dataframe], are looked up by [get_value] like an
    association list: the value beside the first key equal to the searched
    one, and the failure of the lookup when no key is. *)
Theorem lookup_in_converted_lists globals (kc vc : string) (ks vs : list V) x :
  kc <> vc -> length ks = length vs ->
  exists df,
    convert_lists_to_dataframe [ks; vs] [kc; vc] = Ok df /\
    get_value eqb globals df kc x vc =
      match find (fun kv => eqb (fst kv) x) (zip ks vs) with
      | Some kv => ([], Ok (snd kv))
      | None =>
          if bool_decide ("SearchValNotFound" ∈ globals)
          then ([LogError (SearchValNotFound kc x)], Raise (SearchValNotFound kc x))
          else ([], Raise (NameError "SearchValNotFound"))
      end.
Proof.
  intros Hne Hlen. exists [(kc, ks); (vc, vs)]. split.
  - unfold convert_lists_to_dataframe, dict_of. simpl.
    rewrite decide_False by done. simpl.
    rewrite !bool_decide_eq_true_2; done.
  - unfold get_value, getitem. simpl. rewrite decide_True by done. simpl.
    rewrite decide_False by done. rewrite decide_True by done. simpl.
    pose proof (select_head ks vs x) as Hhd.
    destruct (select _ vs) as [|v rest]; simpl in Hhd.
    + destruct (find _ _); [discriminate|]. by case_bool_decide.
    + destruct (find _ _) as [kv|]; [|discriminate]. by injection Hhd as ->.
Qed.

End ColumnsTheory.

(** ** Files *)

Section FilesTheory.
Import UtilsFiles.

Lemma Path_unbound : "Path" ∉ Utils.module_globals.
Proof. vm_compute. intros H. inversion H. Qed.

Lemma open_file_unbound host path :
  open_file Utils.module_globals host path = ([], Raise (NameError "Path")).
Proof. unfold open_file. by rewrite (bool_decide_eq_false_2 _ Path_unbound). Qed.

(** X12. In utils.py, which binds no [Path], [open_file] raises [NameError]
    for every path on every platform, before it looks at the file system:
    nothing is opened and nothing is logged. *)
Theorem open_file_raises_name_error host path :
  open_file Utils.module_globals host path = ([], Raise (NameError "Path")).
Proof. apply open_file_unbound. Qed.

(** X13. In utils.py [load_pickle] returns [None] for every path, whatever
    the file holds: the [NameError] for [Path] is caught with every other
    exception and logged as critical, and the file is never read. *)
Theorem load_pickle_returns_none {V} (unpickle : string -> result exn (option V)) path :
  load_pickle Utils.module_globals unpickle path =
    ([LogCritical (NameError "Path")], Ok None).
Proof. unfold load_pickle. by rewrite (bool_decide_eq_false_2 _ Path_unbound). Qed.

(** X14. In utils.py [df_to_tmp_excel] never returns: the temporary file is
    created and written, and then either the exception of the writing or the
    [NameError] of [open_file] leaves the function; the file is never
    opened. *)
Theorem df_to_tmp_excel_raises {DF} host
    (to_excel : DF -> string -> string -> result exn unit) (df : DF) sheet_name :
  df_to_tmp_excel Utils.module_globals host to_excel df sheet_name =
    ([NamedTemporaryFile ".xlsx"; ToExcel (tmp_name host) sheet_name],
     Raise (match to_excel df (tmp_name host) sheet_name with
            | Ok _ => NameError "Path"
            | Raise e => e
            end)).
Proof.
  unfold df_to_tmp_excel, bind, call. destruct (to_excel _ _ _); [|done].
  by rewrite open_file_unbound.
Qed.

End FilesTheory.

(** ** Column widths *)

Section SheetsTheory.
Import UtilsSheets.

Lemma visit_column_free m0 col :
  visit_column false m0 col = (m0 `max` max_list (map longest_line col), col).
Proof.
  revert m0. induction col as [|cell col IH]; intros m0; simpl.
  - f_equal. lia.
  - unfold visit_cell. simpl. rewrite IH. f_equal. case_bool_decide; lia.
Qed.

Lemma visit_column_capped m0 col :
  m0 <= MAX_WIDTH ->
  visit_column true m0 col =
    ((m0 `max` max_list (map longest_line col)) `min` MAX_WIDTH, map (wrapped true) col).
Proof.
  revert m0. induction col as [|cell col IH]; intros m0 Hm0; simpl.
  - f_equal. lia.
  - unfold visit_cell, wrapped at 1. simpl.
    destruct (decide (MAX_WIDTH < longest_line cell)) as [Hlong|Hshort].
    + rewrite (bool_decide_eq_true_2 (m0 < longest_line cell)) by lia.
      rewrite !bool_decide_eq_true_2 by done.
      rewrite IH by done. f_equal. lia.
    + rewrite (bool_decide_eq_false_2 (MAX_WIDTH < longest_line cell)) by done.
      rewrite (bool_decide_eq_false_2 (MAX_WIDTH < _)); [|case_bool_decide; lia].
      rewrite IH; [|case_bool_decide; lia]. f_equal. case_bool_decide; lia.
Qed.

Lemma visit_column_spec until_max_width col :
  visit_column until_max_width 0 col =
    (fitted_width until_max_width col - 2, map (wrapped until_max_width) col).
Proof.
  unfold fitted_width. destruct until_max_width.
  - rewrite visit_column_capped by (unfold MAX_WIDTH; lia). f_equal. lia.
  - rewrite visit_column_free. f_equal; [lia|].
    rewrite <- (map_id col) at 1. by apply map_ext.
Qed.

Lemma format_columns_cells until_max_width cols : forall col_index widths,
  fst (format_columns until_max_width col_index cols widths) =
    map (map (wrapped until_max_width)) cols.
Proof.
  induction cols as [|col cols IH]; intros col_index widths; simpl; [done|].
  rewrite visit_column_spec.
  specialize (IH (S col_index)
    (<[col_index + 1 := fitted_width until_max_width col - 2 + 2]> widths)).
  destruct (format_columns _ _ _ _) as [cols' widths']. simpl in *. by rewrite IH.
Qed.

Lemma format_columns_widths until_max_width cols : forall col_index widths k,
  snd (format_columns until_max_width col_index cols widths) !! k =
    if decide (col_index + 1 <= k < col_index + 1 + length cols)
    then fitted_width until_max_width <$> cols !! (k - (col_index + 1))
    else widths !! k.
Proof.
  induction cols as [|col cols IH]; intros col_index widths k; simpl.
  - case_decide; [lia|done].
  - rewrite visit_column_spec.
    specialize (IH (S col_index)
      (<[col_index + 1 := fitted_width until_max_width col - 2 + 2]> widths) k).
    destruct (format_columns _ _ _ _) as [cols' widths']. simpl in *. rewrite IH.
    replace (fitted_width until_max_width col - 2 + 2)
      with (fitted_width until_max_width col) by (unfold fitted_width; lia).
    destruct (decide (k = col_index + 1)) as [->|Hk].
    + rewrite decide_False by lia. rewrite lookup_insert_eq.
      rewrite decide_True by lia. by rewrite Nat.sub_diag.
    + rewrite lookup_insert_ne by done.
      repeat case_decide; try lia; [|done].
      by replace (k - (col_index + 1)) with (S (k - S (col_index + 1))) by lia.
Qed.

(** X15. After [_auto_format_cell_dimensions_] the width of the column
    numbered [j + 1] is its longest line plus two, the longest line being
    capped at 35 when [until_max_width] is set; the width of a column the
    sheet does not have is left as it was. *)
Theorem column_widths_fitted ws until_max_width k :
  column_widths (_auto_format_cell_dimensions_ ws until_max_width) !! k =
    match k with
    | 0 => column_widths ws !! 0
    | S j =>
        match iter_cols ws !! j with
        | Some col => Some (fitted_width until_max_width col)
        | None => column_widths ws !! k
        end
    end.
Proof.
  unfold _auto_format_cell_dimensions_.
  pose proof (format_columns_widths until_max_width (iter_cols ws) 0 (column_widths ws) k)
    as Hw.
  destruct (format_columns _ _ _ _) as [cols widths]. simpl in *. rewrite Hw.
  destruct k as [|j].
  - by rewrite decide_False by lia.
  - replace (S j - 1) with j by lia.
    destruct (iter_cols ws !! j) as [col|] eqn:Hj.
    + apply lookup_lt_Some in Hj as Hlt. by rewrite decide_True by lia.
    + apply lookup_ge_None in Hj. by rewrite decide_False by lia.
Qed.

(** X16. [_auto_format_cell_dimensions_] changes no text, and it switches a
    cell to wrapping exactly when [until_max_width] is set and one of the
    cell's own lines is longer than 35 characters, whatever the other cells
    of the column hold; without [until_max_width] every cell is left as it
    was. *)
Theorem cells_wrapped ws until_max_width :
  iter_cols (_auto_format_cell_dimensions_ ws until_max_width) =
    map (map (wrapped until_max_width)) (iter_cols ws).
Proof.
  unfold _auto_format_cell_dimensions_.
  pose proof (format_columns_cells until_max_width (iter_cols ws) 0 (column_widths ws))
    as Hc.
  by destruct (format_columns _ _ _ _) as [cols widths].
Qed.

End SheetsTheory.

(** ** The tqdm logger *)

Section LoggingTheory.
Import LoggingLogic.

Lemma append_empty (s : string) : (s ++ "")%string = s.
Proof.
  induction s as [|c s IH]; [done|].
  change (String c (s ++ "")%string = String c s). by rewrite IH.
Qed.

Lemma restore_entered (f : Handler -> Handler) hs :
  (forall h, handler_level (f h) = handler_level h) ->
  restore (map f hs) (map formatter hs) =
    map (fun h => {| formatter := formatter h; terminator := newline;
                     handler_level := handler_level h; stream := stream (f h) |}) hs.
Proof.
  intros Hlevel. induction hs as [|h hs IH]; simpl; [done|].
  rewrite IH. f_equal. unfold setFormatter, set_terminator. simpl. by rewrite Hlevel.
Qed.

(** X17. Leaving the block gives every handler the formatter it had on
    entry, and the terminator ["\n"] whatever terminator it had: the level
    and the stream are untouched, and a terminator other than the newline is
    not restored. *)
Theorem exit_restores_formatters lg :
  __exit__ (__enter__ lg) =
    {| level := level lg;
       handlers := map (fun h => set_terminator h newline) (handlers lg) |}.
Proof.
  unfold __exit__, __enter__. simpl. f_equal.
  by rewrite (restore_entered (fun h => setFormatter (set_terminator h "") (Some message_only))).
Qed.

(** X18. [write] puts the buffer as it is, with no prefix and no line end,
    on the stream of every handler that takes records of level INFO, when
    the logger does; afterwards every handler has the formatter it had
    before. *)
Theorem write_emits_buffer lg origin buffer :
  write lg origin buffer =
    {| level := level lg;
       handlers :=
         map (fun h =>
                {| formatter := formatter h; terminator := newline;
                   handler_level := handler_level h;
                   stream := if bool_decide (level lg <= INFO)%Z
                                && bool_decide (handler_level h <= INFO)%Z
                             then stream h ++ [buffer] else stream h |})
             (handlers lg) |}.
Proof.
  unfold write, __exit__, __enter__, info. cbn [_logger original_formatters level handlers].
  case_bool_decide as Hlg; cbn [level handlers]; f_equal.
  - rewrite map_map.
    rewrite (restore_entered
      (fun h => if bool_decide (handler_level (setFormatter (set_terminator h "")
                                                            (Some message_only)) <= INFO)%Z
                then emit (setFormatter (set_terminator h "") (Some message_only))
                          {| message := buffer; origin := origin |}
                else setFormatter (set_terminator h "") (Some message_only))).
    + apply map_ext. intros h. simpl. case_bool_decide; simpl; [|done].
      by rewrite append_empty.
    + intros h. simpl. by case_bool_decide.
  - rewrite (restore_entered
      (fun h => setFormatter (set_terminator h "") (Some message_only))); done.
Qed.

End LoggingTheory.

(** ** The properties on the example inputs *)

Section CompleteScenario.
Import Pandas SingleSheetReport ReportContents Examples Cases.

Lemma store_is_consistent : store_consistent store.
Proof.
  split; [|done]. simpl. repeat constructor; rewrite ?elem_of_cons, ?elem_of_nil; intuition discriminate.
Qed.

Lemma two_methods : NoDup ["M1"; "M2"].
Proof. repeat constructor; rewrite ?elem_of_cons, ?elem_of_nil; intuition discriminate. Qed.

Lemma one_field : NoDup ["score"].
Proof. repeat constructor. by intros ?%elem_of_nil. Qed.

Lemma both_scored m :
  m ∈ ["M1"; "M2"] -> m ∈ get_all_methods store /\ scored name_length store ["score"] m.
Proof.
  intros Hm. split; [done|].
  assert (m = "M1" \/ m = "M2") as [-> | ->].
  { rewrite !elem_of_cons, elem_of_nil in Hm. tauto. }
  - split.
    + simpl. repeat constructor; rewrite ?elem_of_cons, ?elem_of_nil; intuition discriminate.
    + intros d Hd. simpl in Hd. split.
      * simpl. rewrite !elem_of_cons, elem_of_nil in Hd. rewrite !elem_of_cons. tauto.
      * by eexists.
  - split.
    + simpl. repeat constructor; rewrite ?elem_of_cons, ?elem_of_nil; intuition discriminate.
    + intros d Hd. simpl in Hd. split.
      * simpl. rewrite !elem_of_cons, elem_of_nil in Hd. rewrite !elem_of_cons. tauto.
      * by eexists.
Qed.

Lemma report_table_witness :
  snd (get_report_df_from "Data Set" by_field convert ["M1"; "M2"] ["score"] [DFloat]
         name_length store) =
    astype by_field convert (dict_of (zip ["score"] [DFloat]))
           (dropna_all (full_table name_length store ["M1"; "M2"] ["score"])).
Proof.
  apply (report_table "Data Set" by_field convert ["M1"; "M2"] ["score"] [DFloat]
           name_length store).
  - apply two_methods.
  - apply one_field.
  - apply store_is_consistent.
  - apply both_scored.
Defined.

Lemma report_calls_witness :
  fst (get_report_df_from "Data Set" by_field convert ["M1"; "M2"] ["score"] [DFloat]
         name_length store) =
    calls_of store ["M1"; "M2"].
Proof.
  apply (report_calls "Data Set" by_field convert ["M1"; "M2"] ["score"] [DFloat]
           name_length store).
  - apply two_methods.
  - apply one_field.
  - apply store_is_consistent.
  - apply both_scored.
Defined.

Lemma report_rows_witness : sublist (index scenario_table) (get_all_datasets store).
Proof.
  apply (report_rows_in_store_order "Data Set" by_field convert
           ["M1"; "M2"] ["score"] [DFloat] name_length store scenario_log).
  apply scenario_run.
Defined.

Lemma only_A_scored d' :
  d' ∈ ["A"] -> exists fc s, clients !! d' = Some fc /\
                            name_length (query_for stray fc) = Ok s.
Proof. intros ->%list_elem_of_singleton. by eexists _, _. Qed.

Lemma collector_missing_client_witness :
  _get_score_for_method_ "Data Set" stray clients name_length ["score"] =
    (scoring_calls stray clients ["A"], Raise (KeyError "Z")).
Proof.
  apply (collector_missing_client "Data Set" stray clients name_length ["score"]
           ["A"] "Z" ["B"]).
  - reflexivity.
  - apply only_A_scored.
  - reflexivity.
Defined.

Lemma A_is_readable d' :
  d' ∈ ["A"] -> exists fc s, clients !! d' = Some fc /\
                            fails_on_B (query_for (get_method store "M1") fc) = Ok s.
Proof. intros ->%list_elem_of_singleton. by eexists _, _. Qed.

Lemma collector_score_raises_witness :
  _get_score_for_method_ "Data Set" (get_method store "M1") clients fails_on_B ["score"] =
    (scoring_calls (get_method store "M1") clients ["A"] ++
       [ScoreFunc (query_for (get_method store "M1") (client_at "B"))],
     Raise (Raised "unreadable")).
Proof.
  apply (collector_score_raises "Data Set" (get_method store "M1") clients fails_on_B
           ["score"] ["A"] "B" [] (client_at "B") "unreadable").
  - reflexivity.
  - apply A_is_readable.
  - reflexivity.
  - reflexivity.
Defined.

Lemma ragged_covered d :
  d ∈ datasets (get_method store "M1") ->
  clients !! d = Some (client_at d) /\
  ragged (query_for (get_method store "M1") (client_at d)) = Ok (ragged_score d).
Proof.
  simpl. rewrite !elem_of_cons, elem_of_nil. intros [->|[->|[]]]; by split.
Qed.

Lemma collector_width_witness :
  _get_score_for_method_ "Data Set" (get_method store "M1") clients ragged ["x"; "y"] =
    (map (fun d => ScoreFunc (query_for (get_method store "M1") (client_at d)))
         (datasets (get_method store "M1")),
     if decide (max_list (map (fun d => length (score_values (ragged_score d)))
                              (datasets (get_method store "M1")))
                = length ["x"; "y"])
     then Ok {| score_columns := "Data Set" :: ["x"; "y"];
                score_rows :=
                  map (fun d => (d, score_values (ragged_score d) ++
                                    replicate (length ["x"; "y"]
                                               - length (score_values (ragged_score d))) None))
                      (datasets (get_method store "M1")) |}
     else Raise (ValueError "columns passed do not match the data")).
Proof.
  apply (collector_width "Data Set" (get_method store "M1") clients ragged ["x"; "y"]
           client_at ragged_score).
  - discriminate.
  - apply ragged_covered.
Defined.

(** The short score of B is filled up. *)
Example ragged_rows :
  snd (_get_score_for_method_ "Data Set" (get_method store "M1") clients ragged ["x"; "y"]) =
    Ok {| score_columns := ["Data Set"; "x"; "y"];
          score_rows := [("A", [Some (PNum 1); Some (PNum 2)]);
                         ("B", [Some (PNum 1); None])] |}.
Proof. vm_compute. reflexivity. Qed.

End CompleteScenario.

Section ListScenario.
Import Utils UtilsLists Cases Examples.

Lemma words_not_empty : words <> [].
Proof. discriminate. Qed.

Lemma most_frequent_witness :
  exists x pre post,
    words = pre ++ x :: post /\ (x ∉ pre) /\
    (forall y, y ∈ pre -> occurrences y words < occurrences x words) /\
    (forall y, occurrences y words <= occurrences x words) /\
    most_frequent_plus_frequency words = (Some x, occurrences x words).
Proof. apply (most_frequent_is_first_maximum words). apply words_not_empty. Defined.

(** Of the two words seen twice, the one seen first comes first. *)
Example counted_words :
  get_item_counts words = [("b", 2); ("a", 2); ("c", 1)] /\
  most_frequent_plus_frequency words = (Some "b", 2).
Proof. vm_compute. split; reflexivity. Qed.

Lemma repeated_name :
  convert_lists_to_dataframe [ids; amounts; ids] ["a"; "b"; "a"; "c"] =
    Ok [("a", ids); ("b", amounts)].
Proof. vm_compute. reflexivity. Qed.

Lemma converted_columns_witness :
  NoDup (map fst [("a", ids); ("b", amounts)]) /\
  (forall k, assoc k [("a", ids); ("b", amounts)] =
             assoc k (reverse (zip ["a"; "b"; "a"; "c"] [ids; amounts; ids]))) /\
  exists n, forall k vs, (k, vs) ∈ [("a", ids); ("b", amounts)] -> length vs = n.
Proof.
  apply (converted_columns [ids; amounts; ids] ["a"; "b"; "a"; "c"]).
  apply repeated_name.
Defined.

Lemma id_is_not_price : "id" <> "price".
Proof. discriminate. Qed.

Lemma lookup_in_converted_lists_witness :
  exists df,
    convert_lists_to_dataframe [ids; amounts] ["id"; "price"] = Ok df /\
    get_value Z.eqb project_globals df "id" 2%Z "price" =
      match find (fun kv => Z.eqb (fst kv) 2) (zip ids amounts) with
      | Some kv => ([], Ok (snd kv))
      | None =>
          if bool_decide ("SearchValNotFound" ∈ project_globals)
          then ([LogError (SearchValNotFound "id" 2%Z)], Raise (SearchValNotFound "id" 2%Z))
          else ([], Raise (NameError "SearchValNotFound"))
      end.
Proof.
  apply (lookup_in_converted_lists Z.eqb project_globals "id" "price" ids amounts 2%Z).
  - apply id_is_not_price.
  - reflexivity.
Defined.

End ListScenario.

Section SheetScenario.
Import UtilsSheets LoggingLogic Cases.

(** The long cell alone is wrapped, and the width stops at 35 + 2. *)
Example capped_sheet :
  map (map wrap_text) (iter_cols (_auto_format_cell_dimensions_ sheet true)) =
    [[false; true; false]] /\
  column_widths (_auto_format_cell_dimensions_ sheet true) !! 1 = Some 37 /\
  column_widths (_auto_format_cell_dimensions_ sheet false) !! 1 = Some 42.
Proof. vm_compute. repeat split; reflexivity. Qed.

(** The bar is written bare on the first handler only; the semicolon its
    lines ended with is gone afterwards. *)
Example progress_bar :
  map stream (handlers (write api_logger "tqdm" "50%")) = [["old"; "50%"]; []] /\
  map terminator (handlers (write api_logger "tqdm" "50%")) = [newline; newline].
Proof. vm_compute. split; reflexivity. Qed.

End SheetScenario.

(** ** The coercion under pandas' label matching *)

Section Leniency.
Import Pandas SingleSheetReport.
Context {V dtype : Type}.
Variable DATA_SET_NAME : string.
Variable cast : dtype -> option V -> option (option V).
Implicit Types (mapping : list (string * dtype)) (df : DataFrame V).









End Leniency.

(** ** Scalar and one-element tuple *)

Section ScalarTuple.
Import Pandas SingleSheetReport ReportContents.
Context {V dtype : Type}.
Variable DATA_SET_NAME : string.
Variable key_selects : string -> column_label -> bool.
Variable cast : dtype -> option V -> option (option V).

Lemma reports_scalar_tuple (h : RunQuery -> result string (option V)) methods fields
    (dtypes : list dtype) db :
  get_report_df_from DATA_SET_NAME key_selects cast methods fields dtypes (as_scalar h) db =
    get_report_df_from DATA_SET_NAME key_selects cast methods fields dtypes (as_tuple h) db.
Proof.
  unfold get_report_df_from, pruned_report_df. f_equal.
  apply bind_ext. intros known. case_bool_decide; [done|].
  apply bind_ext. intros all_datasets. apply bind_ext. intros instances. f_equal.
  apply for_loop_ext. intros r m. apply bind_ext. intros mi.
  by rewrite collect_scalar_tuple.
Qed.

(** C7. For one declared field both shapes are accepted and give the same
    rows. Where every dataset of the method has a file client and the
    scoring function yields the value [v d] for the dataset [d], the
    collector calls the scoring function once per dataset and returns, for
    the bare scalar as for the one-element tuple, the table with the columns
    [DATA_SET_NAME] and the field and the row [[d, v d]] for every dataset.
    The assembled reports of the two functions are the same run; and in a
    complete run the report of the tuple-returning function is the table of
    the scalars. *)
Theorem scalar_and_tuple_rows (h : RunQuery -> result string (option V))
    method clients methods name (dtypes : list dtype) db
    (fc : string -> DatasetFileClient) (v : string -> option V) :
  (forall d, d ∈ datasets method ->
     clients !! d = Some (fc d) /\ h (query_for method (fc d)) = Ok (v d)) ->
  let collected : run event exn ScoreTable :=
    (map (fun d => ScoreFunc (query_for method (fc d))) (datasets method),
     Ok {| score_columns := [DATA_SET_NAME; name];
           score_rows := map (fun d => (d, [v d])) (datasets method) |}) in
  _get_score_for_method_ DATA_SET_NAME method clients (as_scalar h) [name] = collected /\
  _get_score_for_method_ DATA_SET_NAME method clients (as_tuple h) [name] = collected /\
  get_report_df_from DATA_SET_NAME key_selects cast methods [name] dtypes (as_scalar h) db =
    get_report_df_from DATA_SET_NAME key_selects cast methods [name] dtypes (as_tuple h) db /\
  (store_consistent db ->
   (forall m, m ∈ methods ->
      m ∈ get_all_methods db /\ scored (as_scalar h) db [name] m) ->
   get_report_df_from DATA_SET_NAME key_selects cast methods [name] dtypes (as_tuple h) db =
     (calls_of db methods,
      astype key_selects cast (dict_of (zip [name] dtypes))
             (dropna_all (full_table (as_scalar h) db methods [name])))).
Proof.
  intros Hcover collected.
  assert (Hscalar :
    _get_score_for_method_ DATA_SET_NAME method clients (as_scalar h) [name] = collected).
  { rewrite (collector_run DATA_SET_NAME method clients (as_scalar h) [name] fc
               (fun d => Scalar (v d))); [done|].
    intros d (Hfc & Hh)%Hcover. unfold as_scalar. by rewrite Hh. }
  split; [done|]. split; [by rewrite <- collect_scalar_tuple|].
  split; [apply reports_scalar_tuple|].
  intros [_ Hnames] Hm. rewrite <- reports_scalar_tuple. unfold get_report_df_from.
  rewrite (pruned_run DATA_SET_NAME (as_scalar h) db Hnames methods [name] Hm).
  simpl. by rewrite app_nil_r.
Qed.

End ScalarTuple.

(** ** The boundary of [create_report_from] with the export of utils.py *)

Section ExportInUtils.
Import Pandas SingleSheetReport UtilsFiles ReportExport.
Context {V dtype : Type}.
Variable DATA_SET_NAME : string.
Variable key_selects : string -> column_label -> bool.
Variable cast : dtype -> option V -> option (option V).
Variable str : exn -> string.
Variable host : Host.
Variable to_excel : DataFrame V -> string -> string -> result exn unit.

Lemma utils_export_raises (report : DataFrame V) sheet_name :
  utils_export host to_excel report sheet_name =
    Raise (match to_excel report (tmp_name host) sheet_name with
           | Ok _ => NameError "Path"
           | Raise e => e
           end).
Proof.
  unfold utils_export, df_to_tmp_excel, bind, call.
  destruct (to_excel _ _ _); [|done]. by rewrite open_file_unbound.
Qed.

(** C8. With [df_to_tmp_excel] as utils.py has it, [create_report_from]
    turns every exception of the assembly into its string and exports
    nothing then; but when the assembly returns a table the function never
    returns the empty string: the export is called and an exception leaves
    [create_report_from], the one of the writing, or the [NameError] for
    [Path], which utils.py does not bind. *)
Theorem create_report_from_in_utils methods fields (dtypes : list dtype) func sheet_name db :
  let assembled :=
    get_report_df_from DATA_SET_NAME key_selects cast methods fields dtypes func db in
  let created :=
    create_report_from DATA_SET_NAME key_selects cast (utils_export host to_excel) str
                       methods fields dtypes func sheet_name db in
  (forall l e, assembled = (l, Raise e) -> created = (l, Ok (str e))) /\
  (forall l report,
     assembled = (l, Ok report) ->
     created = (l ++ [DfToTmpExcel sheet_name],
                Raise (match to_excel report (tmp_name host) sheet_name with
                       | Ok _ => NameError "Path"
                       | Raise e => e
                       end))).
Proof.
  intros assembled created. subst created. unfold create_report_from.
  fold assembled. split.
  - by intros l e ->.
  - intros l report ->. by rewrite utils_export_raises.
Qed.

End ExportInUtils.

(** ** The lookup in utils.py *)

Section LookupInUtils.
Import Utils.
Context {V : Type}.
Variable eqb : V -> V -> bool.

(** C9. [get_value] as utils.py has it, on a frame that has both columns:
    when a row matches, the value of the wanted column in the first matching
    row is returned and nothing is logged; when no row matches, the handler
    reads the name [SearchValNotFound], which utils.py neither imports nor
    defines, and the call ends in [NameError]: the lookup error is neither
    logged nor raised. *)
Theorem get_value_in_utils (df : DataFrame V) search_col_name search_val get_col
    column wanted :
  assoc search_col_name df = Some column -> assoc get_col df = Some wanted ->
  (forall i x v,
     column !! i = Some x -> eqb x search_val = true ->
     (forall j y, j < i -> column !! j = Some y -> eqb y search_val = false) ->
     wanted !! i = Some v ->
     get_value eqb module_globals df search_col_name search_val get_col = ([], Ok v)) /\
  ((forall x, x ∈ column -> eqb x search_val = false) ->
   get_value eqb module_globals df search_col_name search_val get_col =
     ([], Raise (NameError "SearchValNotFound"))).
Proof.
  intros Hsearch Hget. split.
  - intros i x v Hx Hm Hbefore Hv. unfold get_value, getitem. rewrite Hsearch. simpl.
    rewrite assoc_loc_mask, Hget. simpl.
    by destruct (select_first eqb _ _ _ _ _ _ Hx Hm Hbefore Hv) as [rest ->].
  - intros Hnone. by eapply get_value_unbound.
Qed.

End LookupInUtils.

(** ** The four properties on the example inputs *)

Section LenientScenario.
Import Pandas SingleSheetReport ReportContents ReportExport Examples Cases.





Lemma M1_paths d :
  d ∈ datasets (get_method store "M1") ->
  clients !! d = Some (client_at d) /\
  path_score (query_for (get_method store "M1") (client_at d)) = Ok (path_of d).
Proof.
  simpl. rewrite !elem_of_cons, elem_of_nil. intros [->|[->|[]]]; by split.
Qed.

Lemma scalar_and_tuple_witness :
  _get_score_for_method_ "Data Set" (get_method store "M1") clients (as_scalar path_score)
      ["score"] =
    (map (fun d => ScoreFunc (query_for (get_method store "M1") (client_at d)))
         (datasets (get_method store "M1")),
     Ok {| score_columns := ["Data Set"; "score"];
           score_rows := map (fun d => (d, [path_of d])) (datasets (get_method store "M1")) |}) /\
  _get_score_for_method_ "Data Set" (get_method store "M1") clients (as_tuple path_score)
      ["score"] =
    (map (fun d => ScoreFunc (query_for (get_method store "M1") (client_at d)))
         (datasets (get_method store "M1")),
     Ok {| score_columns := ["Data Set"; "score"];
           score_rows := map (fun d => (d, [path_of d])) (datasets (get_method store "M1")) |}).
Proof.
  pose proof (scalar_and_tuple_rows "Data Set" by_label convert path_score
                (get_method store "M1") clients ["M1"; "M2"] "score" [DFloat] store
                client_at path_of M1_paths) as H.
  exact (conj (proj1 H) (proj1 (proj2 H))).
Defined.

(** Both shapes give the table of the scenario. *)
Example scalar_and_tuple_tables :
  get_report_df_from "Data Set" by_label convert ["M1"; "M2"] ["score"] [DFloat]
      (as_scalar path_score) store = (scenario_log, Ok scenario_table) /\
  get_report_df_from "Data Set" by_label convert ["M1"; "M2"] ["score"] [DFloat]
      (as_tuple path_score) store = (scenario_log, Ok scenario_table).
Proof. split; vm_compute; reflexivity. Qed.

Lemma scenario_assembled :
  get_report_df_from "Data Set" by_label convert ["M1"; "M2"] ["score"] [DFloat]
      name_length store = (scenario_log, Ok scenario_table).
Proof. vm_compute. reflexivity. Qed.

Lemma ghost_assembled :
  get_report_df_from "Data Set" by_label convert ["M1"; "ghost"] ["score"] [DFloat]
      name_length store = ([GetAllMethods], Raise (MethodNotFound "ghost")).
Proof. vm_compute. reflexivity. Qed.

(** An unknown method comes back as a string; the scenario of the spec, whose
    table is assembled and written, ends in [NameError]. *)
Lemma create_report_from_witness :
  create_report_from "Data Set" by_label convert (utils_export linux written) message
      ["M1"; "ghost"] ["score"] [DFloat] name_length "Sheet1" store =
    ([GetAllMethods], Ok "ghost") /\
  create_report_from "Data Set" by_label convert (utils_export linux written) message
      ["M1"; "M2"] ["score"] [DFloat] name_length "Sheet1" store =
    (scenario_log ++ [DfToTmpExcel "Sheet1"], Raise (NameError "Path")).
Proof.
  split.
  - apply (proj1 (create_report_from_in_utils "Data Set" by_label convert message linux written
                    ["M1"; "ghost"] ["score"] [DFloat] name_length "Sheet1" store)
             [GetAllMethods] (MethodNotFound "ghost")).
    apply ghost_assembled.
  - apply (proj2 (create_report_from_in_utils "Data Set" by_label convert message linux written
                    ["M1"; "M2"] ["score"] [DFloat] name_length "Sheet1" store)
             scenario_log scenario_table).
    apply scenario_assembled.
Defined.

End LenientScenario.

Section UtilsLookupScenario.
Import Utils Examples.

Lemma first_two_is_second (j : nat) (y : Z) :
  j < 1 -> [1; 2; 2]%Z !! j = Some y -> Z.eqb y 2 = false.
Proof. intros Hj. destruct j as [|j]; [|lia]. by intros [= <-]. Qed.

Lemma no_five (x : Z) : x ∈ [1; 2; 2]%Z -> Z.eqb x 5 = false.
Proof. rewrite !elem_of_cons, elem_of_nil. intros [->|[->|[->|[]]]]; reflexivity. Qed.

(** The id 2 is found; the id 5 is not, and the call ends in [NameError]. *)
Lemma get_value_in_utils_witness :
  get_value Z.eqb module_globals prices "id" 2%Z "price" = ([], Ok 20%Z) /\
  get_value Z.eqb module_globals prices "id" 5%Z "price" =
    ([], Raise (NameError "SearchValNotFound")).
Proof.
  split.
  - apply (proj1 (get_value_in_utils Z.eqb prices "id" 2%Z "price"
                    [1; 2; 2]%Z [10; 20; 30]%Z eq_refl eq_refl) 1 2%Z 20%Z eq_refl eq_refl
             first_two_is_second eq_refl).
  - apply (proj2 (get_value_in_utils Z.eqb prices "id" 5%Z "price"
                    [1; 2; 2]%Z [10; 20; 30]%Z eq_refl eq_refl) no_five).
Defined.

End UtilsLookupScenario.
